(** * node-service-module: dependency container and service-module lifecycle

    A shallow embedding of [DependencyContainer.ts], [ServiceModule.ts] and
    [ExpressServiceModule.ts].  The repository holds two versions of
    [DependencyContainer.ts]; the one embedded is the one with the
    constructable probe ([isConstructable], [buildConstructable]).

    - JavaScript values are a small inductive type: primitives, objects
      (a class name and an ordered property list), error objects and
      functions.  A function carries its [name], its own enumerable
      properties (the static members of a class) and what [new f()] does.
    - Code that can throw returns an [outcome]; code that also mutates an
      object is a function from the state before to an outcome and the
      state after, so a mutation made before a [throw] stays visible.
    - Static members of [ServiceModule] live on class objects, and a class
      object's prototype is the class it extends.  A read of [this.x] inside
      a static method finds the own property of [this] or else that of the
      nearest class up the [extends] chain that has one; a write [this.x = e]
      always creates or updates an own property of [this]; a mutation in
      place ([this.providerKeys.push], [this.dependencies.initialize]) changes
      the object the read found, whichever class owns it.  The array the
      initialiser [providerKeys = []] of [ServiceModule] creates is one
      object, reached by every class below that has no nearer own list.
    - A static method is first given on what it can reach from [this]
      (type [This]: the own properties and what the chain supplies); [on]
      then runs it on one class of the whole program (type [Classes]).
    - Constructors are taken to be pure: [new f()] has the same outcome each
      time it runs and changes nothing the module reads.  The probe version
      of the container runs each constructor twice, once in [isConstructable]
      and once in [buildConstructable]. *)

From Stdlib Require Import String Ascii List Bool ZArith Lia.
Import ListNotations.
Open Scope string_scope.
Open Scope list_scope.

Set Warnings "-register-all".

(** ** Values *)

Inductive error_kind := Error | TypeError.

Inductive value :=
| VUndefined
| VBoolean (b : bool)
| VNumber (n : Z)
| VString (s : string)
| VObject (class_name : string) (props : list (string * value))
| VError (kind : error_kind) (message : string)
| VFunction (name : string) (statics : list (string * value)) (body : behaviour)
with behaviour :=
| NotAConstructor
| Constructs (props : list (string * value))
| Raises (thrown : value).

(** What a call produces: a result, or a thrown value. *)
Inductive outcome (A : Type) :=
| Returns (a : A)
| Throws (e : value).
Arguments Returns {A} a.
Arguments Throws {A} e.

(** ** State with exceptions *)

Definition M (S A : Type) := S -> outcome A * S.

Definition ret {S A} (a : A) : M S A := fun s => (Returns a, s).
Definition throw {S A} (e : value) : M S A := fun s => (Throws e, s).
Definition bind {S A B} (m : M S A) (k : A -> M S B) : M S B :=
  fun s => match m s with
           | (Returns a, s') => k a s'
           | (Throws e, s') => (Throws e, s')
           end.
Definition get {S} : M S S := fun s => (Returns s, s).
Definition lift {S A} (o : outcome A) : M S A := fun s => (o, s).

Declare Scope js_scope.
Delimit Scope js_scope with js.
Notation "x <- m ;; k" := (bind m (fun x => k))
  (at level 100, m at next level, right associativity) : js_scope.
Notation "m ;; k" := (bind m (fun _ => k))
  (at level 100, right associativity) : js_scope.
Open Scope js_scope.

(** [forEach] over an array of the model: the callback runs on each element in
    order and the first throw ends the loop. *)
Fixpoint forEach {S A} (f : A -> M S unit) (l : list A) : M S unit :=
  match l with
  | [] => ret tt
  | a :: l' => f a ;; forEach f l'
  end.

(** ** Objects and strings *)

(** Property read: the value stored under [k], if any. *)
Fixpoint get_prop (k : string) (ps : list (string * value)) : option value :=
  match ps with
  | [] => None
  | (k', v) :: ps' => if String.eqb k k' then Some v else get_prop k ps'
  end.

(** Property write [o[k] = v] and [Map.prototype.set]: an existing key keeps
    its place, a new key goes last. *)
Fixpoint set_prop (k : string) (v : value) (ps : list (string * value))
  : list (string * value) :=
  match ps with
  | [] => [(k, v)]
  | (k', v') :: ps' =>
      if String.eqb k k' then (k, v) :: ps' else (k', v') :: set_prop k v ps'
  end.

(** [s.indexOf(pat)]: the first position of [pat] in [s], or [-1]. *)
Definition indexOf (s pat : string) : Z :=
  match String.index 0 pat s with
  | Some n => Z.of_nat n
  | None => (-1)%Z
  end.

(** [new object()] with no argument.  A class or plain function runs its
    body; anything else makes the engine throw its "is not a constructor"
    TypeError, whose text names the callee expression. *)
Definition not_a_constructor : value :=
  VError TypeError "object is not a constructor".

Definition construct (object : value) : outcome value :=
  match object with
  | VFunction name _ (Constructs props) => Returns (VObject name props)
  | VFunction _ _ (Raises thrown) => Throws thrown
  | _ => Throws not_a_constructor
  end.

(** The string [err.message.indexOf] can be called on: an error object has
    one, and so has an object or function with a string [message] property;
    a thrown primitive or [undefined] has none. *)
Definition message_of (err : value) : option string :=
  match err with
  | VError _ m => Some m
  | VObject _ ps | VFunction _ ps _ =>
      match get_prop "message" ps with
      | Some (VString m) => Some m
      | _ => None
      end
  | _ => None
  end.

Definition no_indexOf : value :=
  VError TypeError "Cannot read property 'indexOf' of undefined".

(** Own enumerable properties of a function or an object, as [Object.keys]
    and object spread see them. *)
Definition own_enumerable (object : value) : list (string * value) :=
  match object with
  | VFunction _ statics _ => statics
  | VObject _ ps => ps
  | _ => []
  end.

Definition cannot_convert : value :=
  VError TypeError "Cannot convert undefined or null to object".

(** [Object.keys(object)]: it throws on [undefined]. *)
Definition Object_keys (object : value) : outcome (list string) :=
  match object with
  | VUndefined => Throws cannot_convert
  | _ => Returns (map fst (own_enumerable object))
  end.

(** [o[k] = v] on a built instance. *)
Definition assign (o : value) (k : string) (v : value) : value :=
  match o with
  | VObject c ps => VObject c (set_prop k v ps)
  | _ => o
  end.

Definition or_undefined (o : option value) : value :=
  match o with
  | Some v => v
  | None => VUndefined
  end.

(** ** DependencyContainer *)

Definition InjectionKey := string.

Module DependencyContainer.

(** The private [container] field, a [Map] in insertion order. *)
Definition t := list (InjectionKey * value).

(** [new DependencyContainer()] *)
Definition new : t := [].

Definition register (key : InjectionKey) (v : value) : M t unit :=
  fun container => (Returns tt, set_prop key v container).

Definition resolve (key : InjectionKey) : M t value :=
  fun container => (Returns (or_undefined (get_prop key container)), container).

Definition isConstructable (object : value) : outcome bool :=
  match construct object with
  | Returns _ => Returns true
  | Throws err =>
      match message_of err with
      | Some m =>
          if (0 <=? indexOf m "is not a constructor")%Z
          then Returns false
          else Returns true
      | None => Throws no_indexOf
      end
  end.

Definition buildConstructable (object : value) : outcome value :=
  match Object_keys object with
  | Throws e => Throws e
  | Returns staticPropKeys =>
      let staticClassPrototype := own_enumerable object in
      match construct object with
      | Returns constructable =>
          Returns
            (fold_left
               (fun inst key =>
                  assign inst key
                    (or_undefined (get_prop key staticClassPrototype)))
               staticPropKeys constructable)
      | Throws e => Throws e
      end
  end.

(** The callback of [initialize]'s [forEach]. *)
Definition initialize_entry (entry : InjectionKey * value) : M t unit :=
  let '(key, val) := entry in
  b <- lift (isConstructable val) ;;
  dependency <- (if b : bool then lift (buildConstructable val) else ret val) ;;
  register key dependency.

(** [Map.prototype.forEach] visits each key once, in insertion order; the
    callback only overwrites the entry being visited, so the entries it
    sees are those present when the loop starts. *)
Definition initialize : M t unit :=
  container <- get ;;
  forEach initialize_entry container.

End DependencyContainer.

(** ** ServiceModule *)

(** A provider's [provide] field and [resolveDependency]'s argument: a string
    key, or a constructor reference, of which only [.name] is read. *)
Inductive Token :=
| Key (k : InjectionKey)
| Ctor (name : string).

Record ClassProvider := { provide : Token; useClass : value }.

(** The own static properties of one class object.  [None] is a property the
    class object does not have itself. *)
Record Statics := {
  dependencies : option DependencyContainer.t;
  providerKeys : option (list InjectionKey);
  _initialized : option bool;
  _expressRouter : option value
}.

Definition no_statics : Statics :=
  {| dependencies := None; providerKeys := None;
     _initialized := None; _expressRouter := None |}.

(** What a static method reaches from [this]: the own properties of the
    class it is called on, and what the classes it extends supply for the
    properties it does not own.  [base_providerKeys] is the array of the
    nearest class above that has one ([ServiceModule] always has: its
    initialiser makes one and [destroy] only ever replaces it);
    [base_dependencies], [base_initialized] and [base_expressRouter] are the
    container, flag and router handle found up the chain, if any. *)
Record This := {
  own : Statics;
  base_providerKeys : list InjectionKey;
  base_dependencies : option DependencyContainer.t;
  base_initialized : bool;
  base_expressRouter : option value
}.

(** Reads of [this.x]: the own property, else the inherited one. *)
Definition read_initialized (s : This) : bool :=
  match _initialized (own s) with
  | Some b => b
  | None => base_initialized s
  end.

Definition read_providerKeys (s : This) : list InjectionKey :=
  match providerKeys (own s) with
  | Some l => l
  | None => base_providerKeys s
  end.

Definition read_dependencies (s : This) : option DependencyContainer.t :=
  match dependencies (own s) with
  | Some c => Some c
  | None => base_dependencies s
  end.

Definition read_expressRouter (s : This) : value :=
  or_undefined
    (match _expressRouter (own s) with
     | Some r => Some r
     | None => base_expressRouter s
     end).

(** The own properties replaced, the rest as it was. *)
Definition with_own (o : Statics) (s : This) : This :=
  {| own := o;
     base_providerKeys := base_providerKeys s;
     base_dependencies := base_dependencies s;
     base_initialized := base_initialized s;
     base_expressRouter := base_expressRouter s |}.

(** Writes [this.x = e]: always an own property. *)
Definition write_dependencies (d : DependencyContainer.t) : M This unit :=
  fun s => (Returns tt,
            with_own {| dependencies := Some d;
                        providerKeys := providerKeys (own s);
                        _initialized := _initialized (own s);
                        _expressRouter := _expressRouter (own s) |} s).

Definition write_providerKeys (l : list InjectionKey) : M This unit :=
  fun s => (Returns tt,
            with_own {| dependencies := dependencies (own s);
                        providerKeys := Some l;
                        _initialized := _initialized (own s);
                        _expressRouter := _expressRouter (own s) |} s).

Definition write_initialized (b : bool) : M This unit :=
  fun s => (Returns tt,
            with_own {| dependencies := dependencies (own s);
                        providerKeys := providerKeys (own s);
                        _initialized := Some b;
                        _expressRouter := _expressRouter (own s) |} s).

Definition write_expressRouter (r : value) : M This unit :=
  fun s => (Returns tt,
            with_own {| dependencies := dependencies (own s);
                        providerKeys := providerKeys (own s);
                        _initialized := _initialized (own s);
                        _expressRouter := Some r |} s).

(** The inherited array, or the inherited container, changed in place. *)
Definition with_base_providerKeys (l : list InjectionKey) (s : This) : This :=
  {| own := own s;
     base_providerKeys := l;
     base_dependencies := base_dependencies s;
     base_initialized := base_initialized s;
     base_expressRouter := base_expressRouter s |}.

Definition with_base_dependencies (c : DependencyContainer.t) (s : This) : This :=
  {| own := own s;
     base_providerKeys := base_providerKeys s;
     base_dependencies := Some c;
     base_initialized := base_initialized s;
     base_expressRouter := base_expressRouter s |}.

(** [this.providerKeys.push(k)] mutates the array [this.providerKeys] reads:
    the own array, else the inherited one. *)
Definition push_providerKeys (k : InjectionKey) : M This unit :=
  fun s =>
    match providerKeys (own s) with
    | Some l => write_providerKeys (l ++ [k]) s
    | None => (Returns tt, with_base_providerKeys (base_providerKeys s ++ [k]) s)
    end.

Definition undefined_has_no (method : string) : value :=
  VError TypeError ("Cannot read property '" ++ method ++ "' of undefined")%string.

(** [this.dependencies.method(...)]: a TypeError when [this.dependencies] is
    undefined, else the method runs on the container object the read found
    and changes that object in place: the own container, else the inherited
    one. *)
Definition call_dependencies {A} (method : string)
    (m : M DependencyContainer.t A) : M This A :=
  fun s =>
    match dependencies (own s) with
    | Some container =>
        let '(r, container') := m container in
        (r, snd (write_dependencies container' s))
    | None =>
        match base_dependencies s with
        | Some container =>
            let '(r, container') := m container in
            (r, with_base_dependencies container' s)
        | None => (Throws (undefined_has_no method), s)
        end
    end.

Module ServiceModule.

Definition DoubleInitialization (name : string) : value :=
  VError Error
    (name ++ " is already initialized. Please destroy the existing instance of this module before initializing a new one.")%string.

Definition NotInitialized (name : string) : value :=
  VError Error
    (name ++ " has not yet been initialized. Please use the initializer to utilize this module.")%string.

Definition NothingToDestroy (name : string) : value :=
  VError Error ("No instance of " ++ name ++ " has been initialized.")%string.

Definition ProvidersAfterInit (name : string) : value :=
  VError Error
    (name ++ " has already been initialized. Cannot set providers after module is initialized.")%string.

Definition UnresolvedKey (key : InjectionKey) : value :=
  VError Error ("Nothing provided for " ++ key ++ ".")%string.

(** The errors the module's own [throw] statements raise. *)
Inductive taxonomy : value -> Prop :=
| tax_DoubleInitialization name : taxonomy (DoubleInitialization name)
| tax_NotInitialized name : taxonomy (NotInitialized name)
| tax_NothingToDestroy name : taxonomy (NothingToDestroy name)
| tax_ProvidersAfterInit name : taxonomy (ProvidersAfterInit name)
| tax_UnresolvedKey key : taxonomy (UnresolvedKey key).

(** In every method [name] is [this.name], the name of the class the
    method is called on. *)

(** [static get initialized()] *)
Definition initialized : M This bool :=
  fun s => (Returns (read_initialized s), s).

Definition initialize (name : string) : M This unit :=
  b <- initialized ;;
  if negb b then
    call_dependencies "initialize" DependencyContainer.initialize ;;
    write_initialized true
  else
    throw (DoubleInitialization name).

Definition destroy (name : string) : M This unit :=
  b <- initialized ;;
  if b then
    write_dependencies DependencyContainer.new ;;
    write_providerKeys [] ;;
    write_initialized false
  else
    throw (NothingToDestroy name).

Definition token_key (t : Token) : InjectionKey :=
  match t with
  | Key k => k
  | Ctor name => name
  end.

(** The callback of the setter's [forEach]. *)
Definition set_provider (provider : ClassProvider) : M This unit :=
  let injectionKey := token_key (provide provider) in
  push_providerKeys injectionKey ;;
  call_dependencies "register"
    (DependencyContainer.register injectionKey (useClass provider)).

(** [static set providers(myProviders)] *)
Definition set_providers (myProviders : list ClassProvider) (name : string)
  : M This unit :=
  write_dependencies DependencyContainer.new ;;
  b <- initialized ;;
  if negb b then forEach set_provider myProviders
  else throw (ProvidersAfterInit name).

(** [Array.prototype.includes] on strings. *)
Definition includes (l : list InjectionKey) (k : InjectionKey) : bool :=
  existsb (String.eqb k) l.

Definition resolveDependency (dependency : Token) (name : string)
  : M This value :=
  b <- initialized ;;
  if negb b then throw (NotInitialized name)
  else
    let dependencyKey := token_key dependency in
    providerKeys <- (fun s => (Returns (read_providerKeys s), s)) ;;
    if negb (includes providerKeys dependencyKey)
    then throw (UnresolvedKey dependencyKey)
    else call_dependencies "resolve" (DependencyContainer.resolve dependencyKey).

(** The decorator [serviceModule({providers})(target)]. *)
Definition serviceModule (providers : list ClassProvider) (target : string)
  : M This unit :=
  set_providers providers target.

End ServiceModule.

Module ExpressServiceModule.

(** [static get expressRouter()] *)
Definition expressRouter (name : string) : M This value :=
  b <- ServiceModule.initialized ;;
  if negb b then throw (ServiceModule.NotInitialized name)
  else fun s => (Returns (read_expressRouter s), s).

(** The decorator [expressServiceModule({expressRouter, providers})(target)]. *)
Definition expressServiceModule (router : value)
    (providers : list ClassProvider) (target : string) : M This unit :=
  write_expressRouter router ;;
  ServiceModule.serviceModule providers target.

End ExpressServiceModule.

(** ** Programs: calls on the class objects of one program *)

(** A class object, named by its [extends] path: [[]] is [ServiceModule]
    itself and [n :: p] is the class declared as [class n extends p], so
    [["Api"; "Base"]] is [class Api extends Base] with
    [class Base extends ServiceModule]. *)
Definition Class := list string.

(** [this.name] *)
Definition class_name (c : Class) : string :=
  match c with
  | [] => "ServiceModule"
  | n :: _ => n
  end.

Fixpoint Class_eqb (a b : Class) : bool :=
  match a, b with
  | [], [] => true
  | x :: a', y :: b' => String.eqb x y && Class_eqb a' b'
  | _, _ => false
  end.

(** [c] is [a] or extends it, directly or not. *)
Fixpoint is_or_extends (c a : Class) : bool :=
  Class_eqb c a
  || match c with
     | [] => false
     | _ :: p => is_or_extends p a
     end.

(** The own static properties of every class object. *)
Definition Classes := Class -> Statics.

(** The program state once every class declaration has run: [ServiceModule]
    has the list and the flag its initialisers made, no other class has an
    own static property yet. *)
Definition declared : Classes :=
  fun c =>
    match c with
    | [] => {| dependencies := None; providerKeys := Some [];
               _initialized := Some false; _expressRouter := None |}
    | _ :: _ => no_statics
    end.

(** Property lookup from class [c] up its chain. *)
Fixpoint inherited {A} (field : Statics -> option A) (s : Classes) (c : Class)
  : option A :=
  match field (s c) with
  | Some a => Some a
  | None =>
      match c with
      | [] => None
      | _ :: p => inherited field s p
      end
  end.

(** Property lookup from the class [c] extends. *)
Definition above {A} (field : Statics -> option A) (s : Classes) (c : Class)
  : option A :=
  match c with
  | [] => None
  | _ :: p => inherited field s p
  end.

Definition view (s : Classes) (this : Class) : This :=
  {| own := s this;
     base_providerKeys :=
       match above providerKeys s this with Some l => l | None => [] end;
     base_dependencies := above dependencies s this;
     base_initialized :=
       match above _initialized s this with Some b => b | None => false end;
     base_expressRouter := above _expressRouter s this |}.

Definition update (c : Class) (o : Statics) (s : Classes) : Classes :=
  fun a => if Class_eqb a c then o else s a.

(** The array, or the container, that a lookup from [c] finds, changed in
    place: the nearest class from [c] up that owns one holds the new
    content. *)
Fixpoint store_providerKeys (l : list InjectionKey) (s : Classes) (c : Class)
  : Classes :=
  match providerKeys (s c) with
  | Some _ =>
      update c {| dependencies := dependencies (s c);
                  providerKeys := Some l;
                  _initialized := _initialized (s c);
                  _expressRouter := _expressRouter (s c) |} s
  | None =>
      match c with
      | [] => s
      | _ :: p => store_providerKeys l s p
      end
  end.

Fixpoint store_dependencies (d : DependencyContainer.t) (s : Classes) (c : Class)
  : Classes :=
  match dependencies (s c) with
  | Some _ =>
      update c {| dependencies := Some d;
                  providerKeys := providerKeys (s c);
                  _initialized := _initialized (s c);
                  _expressRouter := _expressRouter (s c) |} s
  | None =>
      match c with
      | [] => s
      | _ :: p => store_dependencies d s p
      end
  end.

(** The state a method left, written back: the own properties of [this],
    and the inherited array and container on the classes that own them. *)
Definition store (this : Class) (t : This) (s : Classes) : Classes :=
  update this (own t)
    match this with
    | [] => s
    | _ :: p =>
        let s1 := store_providerKeys (base_providerKeys t) s p in
        match base_dependencies t with
        | Some d => store_dependencies d s1 p
        | None => s1
        end
    end.

(** [this.method(...)] with [this] the class object [this]. *)
Definition on {A} (this : Class) (method : string -> M This A) : M Classes A :=
  fun s =>
    let '(r, t) := method (class_name this) (view s this) in
    (r, store this t s).

Inductive call :=
| Initialize
| Destroy
| SetProviders (myProviders : list ClassProvider)
| ResolveDependency (dependency : Token)
| ExpressRouter
| DecorateExpress (router : value) (providers : list ClassProvider).

Definition sets_providers (c : call) : bool :=
  match c with
  | SetProviders _ | DecorateExpress _ _ => true
  | _ => false
  end.

(** One call on class [fst ev]; a caller that catches the error goes on from
    the state the call left. *)
Definition step (s : Classes) (ev : Class * call) : Classes :=
  let '(this, c) := ev in
  match c with
  | Initialize => snd (on this ServiceModule.initialize s)
  | Destroy => snd (on this ServiceModule.destroy s)
  | SetProviders p => snd (on this (ServiceModule.set_providers p) s)
  | ResolveDependency d => snd (on this (ServiceModule.resolveDependency d) s)
  | ExpressRouter => snd (on this ExpressServiceModule.expressRouter s)
  | DecorateExpress r p =>
      snd (on this (ExpressServiceModule.expressServiceModule r p) s)
  end.

Definition run (t : list (Class * call)) (s : Classes) : Classes :=
  fold_left step t s.

(** ** Sample classes and values *)

Definition LoggerClass : value :=
  VFunction "LoggerClass" [("level", VString "info")]
    (Constructs [("lines", VNumber 0)]).
Definition config : value := VObject "Object" [("debug", VBoolean true)].
(** A class whose constructor throws an [Error] of its own. *)
Definition NeedsState : value :=
  VFunction "NeedsState" [] (Raises (VError Error "missing required state")).
(** A class whose constructor throws a string. *)
Definition ThrowsLiteral : value :=
  VFunction "ThrowsLiteral" [] (Raises (VString "boom")).

Definition sample_providers : list ClassProvider :=
  [ {| provide := Key "Logger"; useClass := LoggerClass |};
    {| provide := Key "config"; useClass := config |} ].

(** ** Vocabulary of the statements *)

(** [pat] occurs somewhere in [s]. *)
Definition contains (s pat : string) : Prop :=
  exists pre post, s = (pre ++ pat ++ post)%string.

(** The probe [new v()] fails with an error whose message says that [v] is
    not a constructor. *)
Definition raises_not_a_constructor (v : value) : Prop :=
  exists e m, construct v = Throws e /\ message_of e = Some m
              /\ contains m "is not a constructor".

(** The probe [new v()] throws something [err.message.indexOf] cannot be
    called on. *)
Definition raises_without_message (v : value) : Prop :=
  exists e, construct v = Throws e /\ message_of e = None.

(** [r] is an object of the class [v]. *)
Definition instance_of (v r : value) : Prop :=
  match v, r with
  | VFunction name _ _, VObject class_name _ => class_name = name
  | _, _ => False
  end.

(** Materialization of [v] built the instance [r]: the constructor returned
    [inst], and [r] is [inst] with every static member of [v] readable under
    its own name and every other property as the constructor left it. *)
Definition built_from (v r : value) : Prop :=
  exists inst,
    construct v = Returns inst
    /\ DependencyContainer.buildConstructable v = Returns r
    /\ instance_of v r
    /\ (forall k x, get_prop k (own_enumerable v) = Some x ->
                    get_prop k (own_enumerable r) = Some x)
    /\ (forall k, get_prop k (own_enumerable v) = None ->
                  get_prop k (own_enumerable r) = get_prop k (own_enumerable inst)).

(** The key a provider is registered under. *)
Definition provider_key (p : ClassProvider) : InjectionKey :=
  ServiceModule.token_key (provide p).

Definition keys_of (P : list ClassProvider) : list InjectionKey :=
  map provider_key P.

(** The provider of [P] that a key stands for: the last one declared with
    that key, since each [register] overwrites. *)
Definition last_provider (k : InjectionKey) (P : list ClassProvider)
  : option ClassProvider :=
  find (fun p => String.eqb k (provider_key p)) (rev P).

(** [register] applied to each provider of [P] in turn, from container [c]. *)
Definition registered (P : list ClassProvider) (c : DependencyContainer.t)
  : DependencyContainer.t :=
  fold_left (fun c p => set_prop (provider_key p) (useClass p) c) P c.

(** What [initialize] stores for a raw value [v]. *)
Definition materialize (v : value) : outcome value :=
  match DependencyContainer.isConstructable v with
  | Returns true => DependencyContainer.buildConstructable v
  | Returns false => Returns v
  | Throws e => Throws e
  end.

Definition materialized (v : value) : value :=
  match materialize v with
  | Returns x => x
  | Throws _ => v
  end.

(** One completed turn of [initialize]'s loop. *)
Definition store_materialized (c : DependencyContainer.t)
    (kv : InjectionKey * value) : DependencyContainer.t :=
  set_prop (fst kv) (materialized (snd kv)) c.

(** Every value of the container materializes without an error. *)
Definition materializable (c : DependencyContainer.t) : Prop :=
  Forall (fun kv => exists x, materialize (snd kv) = Returns x) c.

(** What a caller can tell about a module: its flag, its registered keys and
    its container. *)
Definition observe (s : This)
  : bool * list InjectionKey * option DependencyContainer.t :=
  (read_initialized s, read_providerKeys s, read_dependencies s).

(** The state the setter leaves when it is called on an uninitialized
    module: a container with [P] registered, and [P]'s keys pushed on the
    array [this.providerKeys] reads. *)
Definition provided (P : list ClassProvider) (s : This) : This :=
  {| own := {| dependencies := Some (registered P DependencyContainer.new);
               providerKeys :=
                 option_map (fun l => l ++ keys_of P) (providerKeys (own s));
               _initialized := _initialized (own s);
               _expressRouter := _expressRouter (own s) |};
     base_providerKeys :=
       match providerKeys (own s) with
       | Some _ => base_providerKeys s
       | None => base_providerKeys s ++ keys_of P
       end;
     base_dependencies := base_dependencies s;
     base_initialized := base_initialized s;
     base_expressRouter := base_expressRouter s |}.

(** The state with own container [c] and the own flag as given. *)
Definition with_container (c : DependencyContainer.t) (flag : option bool)
    (s : This) : This :=
  with_own {| dependencies := Some c;
              providerKeys := providerKeys (own s);
              _initialized := flag;
              _expressRouter := _expressRouter (own s) |} s.

(** The state with the inherited container changed to [c] and the own flag
    as given. *)
Definition with_inherited_container (c : DependencyContainer.t)
    (flag : option bool) (s : This) : This :=
  with_base_dependencies c
    (with_own {| dependencies := dependencies (own s);
                 providerKeys := providerKeys (own s);
                 _initialized := flag;
                 _expressRouter := _expressRouter (own s) |} s).

(** The state [destroy] leaves. *)
Definition destroyed (s : This) : This :=
  with_own {| dependencies := Some DependencyContainer.new;
              providerKeys := Some [];
              _initialized := Some false;
              _expressRouter := _expressRouter (own s) |} s.

(** A module class nothing has touched, in a program where no module has
    set providers yet. *)
Definition fresh_module : This :=
  {| own := no_statics;
     base_providerKeys := [];
     base_dependencies := None;
     base_initialized := false;
     base_expressRouter := None |}.

(** The materialized value [r] of a raw provider value [v]: a built instance
    when [v] is classified constructable, [v] itself when it is not. *)
Definition materialized_as (v r : value) : Prop :=
  (DependencyContainer.isConstructable v = Returns true /\ built_from v r)
  \/ (DependencyContainer.isConstructable v = Returns false /\ r = v).

(** The sample providers, set and initialized on a fresh module [A]. *)
Definition sample_initialized : This :=
  snd (ServiceModule.initialize "A"
         (snd (ServiceModule.set_providers sample_providers "A" fresh_module))).

(** An express module: decorated with a router and the sample providers,
    then initialized. *)
Definition sample_router : value := VObject "Router" [].

Definition sample_express : This :=
  snd (ServiceModule.initialize "Api"
         (snd (ExpressServiceModule.expressServiceModule sample_router
                 sample_providers "Api" fresh_module))).

(** A program in which class [B] is configured and initialized and class [A]
    only sees a [destroy()] and a [resolveDependency]. *)
Definition sample_program : list (Class * call) :=
  [ (["B"], SetProviders sample_providers); (["B"], Initialize);
    (["A"], Destroy); (["A"], ResolveDependency (Key "Logger")) ].

(** A second provider list, keyed by a class reference. *)
Definition other_providers : list ClassProvider :=
  [ {| provide := Ctor "LoggerClass"; useClass := LoggerClass |} ].

(** The sample module destroyed, configured with [other_providers] and
    initialized again. *)
Definition sample_reinitialized : This :=
  snd (ServiceModule.initialize "A"
         (snd (ServiceModule.set_providers other_providers "A"
                 (snd (ServiceModule.destroy "A" sample_initialized))))).

(** Class [A] sets one provider; class [B] then sets none and initializes. *)
Definition one_provider : list ClassProvider :=
  [ {| provide := Key "k"; useClass := config |} ].

Definition leak_program : list (Class * call) :=
  [ (["A"], SetProviders one_provider); (["B"], SetProviders []);
    (["B"], Initialize) ].

(** ** The other [DependencyContainer.ts]

    The version under [src/] has no probe: its [initialize] calls [new] on
    every stored value. *)

Module Src.
Module DependencyContainer.

Definition t := list (InjectionKey * value).

Definition register (key : InjectionKey) (v : value) : M t unit :=
  fun container => (Returns tt, set_prop key v container).

Definition resolve (key : InjectionKey) : M t value :=
  fun container => (Returns (or_undefined (get_prop key container)), container).

(** The callback of [initialize]'s [forEach]. *)
Definition initialize_entry (entry : InjectionKey * value) : M t unit :=
  let '(key, val) := entry in
  instance <- lift (construct val) ;;
  register key instance.

Definition initialize : M t unit :=
  container <- get ;;
  forEach initialize_entry container.

End DependencyContainer.
End Src.

(** ** Vocabulary of the further statements *)

(** The method a [call] stands for, on what it reaches from [this]. *)
Definition exec (c : call) (name : string) (s : This) : This :=
  match c with
  | Initialize => snd (ServiceModule.initialize name s)
  | Destroy => snd (ServiceModule.destroy name s)
  | SetProviders p => snd (ServiceModule.set_providers p name s)
  | ResolveDependency d => snd (ServiceModule.resolveDependency d name s)
  | ExpressRouter => snd (ExpressServiceModule.expressRouter name s)
  | DecorateExpress r p =>
      snd (ExpressServiceModule.expressServiceModule r p name s)
  end.

(** No class from [c] up its chain has a container or a set flag of its
    own. *)
Definition unconfigured (s : Classes) (c : Class) : Prop :=
  forall a, is_or_extends c a = true ->
            dependencies (s a) = None /\ _initialized (s a) <> Some true.

(** Every class whose own flag is set finds a container, its own or an
    inherited one. *)
Definition flag_has_container (s : Classes) : Prop :=
  forall a, _initialized (s a) = Some true ->
            inherited dependencies s a <> None.

(** Two readings of an optional property: both absent, or both present and
    related. *)
Definition related {A} (R : A -> A -> Prop) (o o' : option A) : Prop :=
  match o, o' with
  | Some a, Some a' => R a a'
  | None, None => True
  | _, _ => False
  end.

(** A container with the keys of [c], in the same order. *)
Definition same_keys (c c' : DependencyContainer.t) : Prop :=
  map fst c' = map fst c.

(** A key list that starts with [l]. *)
Definition grown (l l' : list InjectionKey) : Prop :=
  exists extra, l' = l ++ extra.

(** The instance [new v()] returns, for the values it returns one for. *)
Definition constructed (v : value) : value :=
  match construct v with
  | Returns inst => inst
  | Throws _ => v
  end.

(** Every value of the container is a constructor that returns. *)
Definition all_construct (c : DependencyContainer.t) : Prop :=
  Forall (fun kv => exists inst, construct (snd kv) = Returns inst) c.

(** The sample providers and one whose constructor throws in the middle. *)
Definition failing_providers : list ClassProvider :=
  [ {| provide := Key "Logger"; useClass := LoggerClass |};
    {| provide := Key "state"; useClass := NeedsState |};
    {| provide := Key "Other"; useClass := LoggerClass |} ].


(** [class Base extends ServiceModule] is configured; nothing is called on
    [class Child extends Base]. *)
Definition Child : Class := ["Child"; "Base"].

Definition inherit_program : list (Class * call) :=
  [ (["Base"], SetProviders sample_providers) ].

(** * Properties *)

(** ** Property lists *)

Section PropertyLists.

Implicit Types (k : string) (v : value) (ps : list (string * value)).

Lemma get_prop_set_prop_same k v ps :
  get_prop k (set_prop k v ps) = Some v.
Proof.
  induction ps as [|[k' v'] ps IH]; simpl.
  - now rewrite String.eqb_refl.
  - destruct (String.eqb k k') eqn:E; simpl.
    + now rewrite String.eqb_refl.
    + now rewrite E.
Qed.

Lemma get_prop_set_prop_other k k' v ps :
  k <> k' -> get_prop k (set_prop k' v ps) = get_prop k ps.
Proof.
  intros Hne. induction ps as [|[k2 v2] ps IH]; simpl.
  - apply String.eqb_neq in Hne. now rewrite Hne.
  - destruct (String.eqb k' k2) eqn:E; simpl.
    + apply String.eqb_eq in E. subst k2.
      apply String.eqb_neq in Hne. now rewrite Hne.
    + destruct (String.eqb k k2); [reflexivity | exact IH].
Qed.

Lemma get_prop_None k ps :
  get_prop k ps = None <-> ~ In k (map fst ps).
Proof.
  induction ps as [|[k' v'] ps IH]; simpl.
  - tauto.
  - destruct (String.eqb k k') eqn:E.
    + apply String.eqb_eq in E. subst. split; [discriminate | tauto].
    + apply String.eqb_neq in E. rewrite IH. split.
      * intros H [H1 | H1]; [congruence | tauto].
      * tauto.
Qed.

(** [set] adds a key only when it is new. *)
Lemma In_set_prop k k' v ps :
  In k (map fst (set_prop k' v ps)) <-> k = k' \/ In k (map fst ps).
Proof.
  induction ps as [|[k2 v2] ps IH]; simpl.
  - intuition congruence.
  - destruct (String.eqb k' k2) eqn:E; simpl.
    + apply String.eqb_eq in E. subst. intuition congruence.
    + rewrite IH. intuition congruence.
Qed.

Lemma NoDup_set_prop k v ps :
  NoDup (map fst ps) -> NoDup (map fst (set_prop k v ps)).
Proof.
  induction ps as [|[k2 v2] ps IH]; simpl; intro H.
  - constructor; [simpl; tauto | constructor].
  - inversion H as [|? ? Hn Hd]; subst.
    destruct (String.eqb k k2) eqn:E; simpl.
    + apply String.eqb_eq in E. subst. now constructor.
    + apply String.eqb_neq in E. constructor; [| now apply IH].
      rewrite In_set_prop. intros [H1 | H1]; [congruence | contradiction].
Qed.

End PropertyLists.

(** ** Strings: [indexOf] finds exactly the occurrences *)

Section IndexOf.

Lemma substring_prefix (p s : string) :
  substring 0 (String.length p) s = p -> exists post, s = (p ++ post)%string.
Proof.
  revert s. induction p as [|a p IH]; intros s H.
  - exists s. reflexivity.
  - destruct s as [|c s]; simpl in H; [discriminate |].
    injection H as -> H. destruct (IH _ H) as [post ->].
    exists post. reflexivity.
Qed.

Lemma substring_occurrence (n : nat) (p s : string) :
  substring n (String.length p) s = p -> contains s p.
Proof.
  revert s. induction n as [|n IH]; intros s H.
  - destruct (substring_prefix _ _ H) as [post ->]. now exists "", post.
  - destruct s as [|c s]; simpl in H.
    + exists "", "". destruct p; [reflexivity | discriminate].
    + destruct (IH _ H) as (pre & post & ->). now exists (String c pre), post.
Qed.

Lemma substring_at_prefix (p post : string) :
  substring 0 (String.length p) (p ++ post)%string = p.
Proof.
  induction p as [|a p IH]; simpl.
  - destruct post; reflexivity.
  - now rewrite IH.
Qed.

Lemma substring_at_occurrence (pre p post : string) :
  substring (String.length pre) (String.length p) (pre ++ p ++ post)%string = p.
Proof.
  induction pre as [|a pre IH]; simpl.
  - apply substring_at_prefix.
  - exact IH.
Qed.

Lemma indexOf_contains (s pat : string) :
  pat <> "" -> ((0 <=? indexOf s pat)%Z = true <-> contains s pat).
Proof.
  intro Hne. unfold indexOf.
  destruct (String.index 0 pat s) as [n|] eqn:E.
  - split; intros _.
    + apply substring_occurrence with (n := n).
      now apply index_correct1 with (n := 0).
    + apply Z.leb_le. lia.
  - split; [discriminate |].
    intros (pre & post & ->). exfalso.
    apply (index_correct3 0 (String.length pre) _ _ E Hne); [lia |].
    apply substring_at_occurrence.
Qed.

End IndexOf.

(** ** The constructable probe and instance building *)

Section Constructable.

Import DependencyContainer.

Lemma isConstructable_returned v inst :
  construct v = Returns inst -> isConstructable v = Returns true.
Proof. unfold isConstructable. now intros ->. Qed.

Lemma isConstructable_message v e m :
  construct v = Throws e -> message_of e = Some m ->
  isConstructable v
  = Returns (negb (0 <=? indexOf m "is not a constructor")%Z).
Proof.
  unfold isConstructable. intros -> ->.
  now destruct (0 <=? indexOf m "is not a constructor")%Z.
Qed.

Lemma isConstructable_no_message v e :
  construct v = Throws e -> message_of e = None ->
  isConstructable v = Throws no_indexOf.
Proof. unfold isConstructable. now intros -> ->. Qed.

(** Values that are not functions, and functions without [[Construct]],
    are classified as not constructable. *)
Lemma isConstructable_not_a_constructor v :
  construct v = Throws not_a_constructor -> isConstructable v = Returns false.
Proof. unfold isConstructable. now intros ->. Qed.

Lemma fold_assign (f : string -> value) ks c ps :
  fold_left (fun inst key => assign inst key (f key)) ks (VObject c ps)
  = VObject c (fold_left (fun ps key => set_prop key (f key) ps) ks ps).
Proof.
  revert ps. induction ks as [|k ks IH]; intro ps; simpl; [reflexivity |].
  apply IH.
Qed.

Lemma get_prop_fold_set_other (f : string -> value) k ks ps :
  ~ In k ks ->
  get_prop k (fold_left (fun ps key => set_prop key (f key) ps) ks ps)
  = get_prop k ps.
Proof.
  revert ps. induction ks as [|a ks IH]; intros ps Hn; simpl; [reflexivity |].
  rewrite IH by (simpl in Hn; tauto).
  apply get_prop_set_prop_other. simpl in Hn. intros ->. tauto.
Qed.

Lemma get_prop_fold_set_in (f : string -> value) k ks ps :
  In k ks ->
  get_prop k (fold_left (fun ps key => set_prop key (f key) ps) ks ps)
  = Some (f k).
Proof.
  revert ps. induction ks as [|a ks IH]; intros ps Hin; simpl; [destruct Hin |].
  destruct (in_dec string_dec k ks) as [Hk | Hk].
  - now apply IH.
  - destruct Hin as [-> | Hin]; [| contradiction].
    rewrite get_prop_fold_set_other by assumption.
    apply get_prop_set_prop_same.
Qed.

(** When the constructor returns, [buildConstructable] returns the instance
    with the static members written over it. *)
Lemma construct_built v inst :
  construct v = Returns inst -> exists r, built_from v r.
Proof.
  intro Hc. unfold built_from, buildConstructable. rewrite Hc.
  destruct v as [| | | | |? ?|name statics [|props|thrown]]; try discriminate.
  injection Hc as <-. unfold Object_keys. simpl own_enumerable.
  rewrite fold_assign. eexists. exists (VObject name props).
  split; [reflexivity |]. split; [exact eq_refl |]. split; [reflexivity |].
  simpl. split.
  - intros k x Hk. rewrite get_prop_fold_set_in.
    + now rewrite Hk.
    + destruct (get_prop_None k statics) as [_ H].
      destruct (in_dec string_dec k (map fst statics)) as [Hi | Hi]; [exact Hi |].
      rewrite (H Hi) in Hk. discriminate.
  - intros k Hk. apply get_prop_fold_set_other. now apply get_prop_None.
Qed.

Lemma buildConstructable_throws v e :
  isConstructable v = Returns true ->
  construct v = Throws e -> buildConstructable v = Throws e.
Proof.
  intros Hc He. destruct v; try (vm_compute in Hc; discriminate Hc).
  unfold buildConstructable. simpl Object_keys. cbv iota zeta. now rewrite He.
Qed.

Lemma built_from_fun v r r' :
  built_from v r -> buildConstructable v = Returns r' -> r' = r.
Proof. intros (inst & _ & H & _) H'. congruence. Qed.

End Constructable.

(** ** The container's [initialize] *)

Lemma forEach_cons {S A} (f : A -> M S unit) a l s :
  forEach f (a :: l) s
  = match f a s with
    | (Returns _, s') => forEach f l s'
    | (Throws e, s') => (Throws e, s')
    end.
Proof. reflexivity. Qed.

Section ContainerInitialize.

Import DependencyContainer.

Lemma initialize_entry_eq k v c :
  initialize_entry (k, v) c
  = match materialize v with
    | Returns x => (Returns tt, set_prop k x c)
    | Throws e => (Throws e, c)
    end.
Proof.
  unfold initialize_entry, materialize, bind, lift, ret, register.
  destruct (isConstructable v) as [[|]|e]; [| reflexivity | reflexivity].
  now destruct (buildConstructable v).
Qed.

Lemma forEach_initialize_returns es c c' :
  forEach initialize_entry es c = (Returns tt, c') ->
  materializable es /\ c' = fold_left store_materialized es c.
Proof.
  revert c. induction es as [|[k v] es IH]; intros c H.
  - injection H as <-. split; [constructor | reflexivity].
  - rewrite forEach_cons, initialize_entry_eq in H.
    destruct (materialize v) as [x|e] eqn:E; [| discriminate].
    destruct (IH _ H) as [Hm ->]. split.
    + constructor; [simpl; eauto | exact Hm].
    + unfold store_materialized at 2. simpl. unfold materialized. now rewrite E.
Qed.

Lemma forEach_initialize_total es c :
  materializable es ->
  forEach initialize_entry es c = (Returns tt, fold_left store_materialized es c).
Proof.
  revert c. induction es as [|[k v] es IH]; intros c H; [reflexivity |].
  inversion H as [|? ? [x Hx] Hm]; subst. simpl in Hx.
  rewrite forEach_cons, initialize_entry_eq, Hx. rewrite IH by assumption.
  simpl. unfold store_materialized at 3. simpl. unfold materialized. now rewrite Hx.
Qed.

Lemma set_prop_middle k v v0 (l1 l2 : list (string * value)) :
  ~ In k (map fst l1) ->
  set_prop k v (l1 ++ (k, v0) :: l2) = l1 ++ (k, v) :: l2.
Proof.
  induction l1 as [|[k1 v1] l1 IH]; simpl; intro Hn.
  - now rewrite String.eqb_refl.
  - destruct (String.eqb k k1) eqn:E.
    + apply String.eqb_eq in E. subst. tauto.
    + rewrite IH by tauto. reflexivity.
Qed.

Lemma fold_store_materialized (pre es : t) :
  NoDup (map fst (pre ++ es)) ->
  fold_left store_materialized es (pre ++ es)
  = pre ++ map (fun kv => (fst kv, materialized (snd kv))) es.
Proof.
  revert pre. induction es as [|[k v] es IH]; intros pre Hnd; simpl.
  - reflexivity.
  - unfold store_materialized at 2. simpl.
    rewrite set_prop_middle.
    + change (pre ++ (k, materialized v) :: es)
        with (pre ++ [(k, materialized v)] ++ es).
      rewrite app_assoc, IH.
      * now rewrite <- app_assoc.
      * rewrite <- app_assoc. simpl.
        rewrite map_app in *. simpl in *. exact Hnd.
    + rewrite map_app in Hnd. simpl in Hnd.
      apply NoDup_remove_2 in Hnd. intro Hin. apply Hnd.
      apply in_or_app. now left.
Qed.

Lemma get_prop_map (g : value -> value) k c :
  get_prop k (map (fun kv => (fst kv, g (snd kv))) c)
  = option_map g (get_prop k c).
Proof.
  induction c as [|[k' v'] c IH]; simpl; [reflexivity |].
  now destruct (String.eqb k k').
Qed.

(** A completed [initialize] leaves every key in place, holding the
    materialized value. *)
Lemma initialize_returns c c' :
  NoDup (map fst c) ->
  initialize c = (Returns tt, c') ->
  materializable c
  /\ c' = map (fun kv => (fst kv, materialized (snd kv))) c.
Proof.
  intros Hnd H. unfold initialize, bind, get in H.
  destruct (forEach_initialize_returns _ _ _ H) as [Hm ->].
  split; [exact Hm |]. now apply (fold_store_materialized []).
Qed.

(** [initialize] completes whenever every value materializes. *)
Lemma initialize_total c :
  materializable c ->
  exists c', initialize c = (Returns tt, c').
Proof.
  intro H. unfold initialize, bind, get. rewrite forEach_initialize_total by assumption.
  eauto.
Qed.

End ContainerInitialize.

(** ** Providers and their keys *)

Section Providers.

Lemma get_prop_Some_In k v (ps : list (string * value)) :
  get_prop k ps = Some v -> In (k, v) ps.
Proof.
  induction ps as [|[k' v'] ps IH]; simpl; [discriminate |].
  destruct (String.eqb k k') eqn:E.
  - apply String.eqb_eq in E. subst. intros [= ->]. now left.
  - intro H. right. now apply IH.
Qed.

Lemma registered_snoc P p c :
  registered (P ++ [p]) c = set_prop (provider_key p) (useClass p) (registered P c).
Proof. unfold registered. now rewrite fold_left_app. Qed.

Lemma last_provider_snoc k P p :
  last_provider k (P ++ [p])
  = if String.eqb k (provider_key p) then Some p else last_provider k P.
Proof. unfold last_provider. now rewrite rev_unit. Qed.

Lemma last_provider_None k P :
  last_provider k P = None <-> ~ In k (keys_of P).
Proof.
  induction P as [|p P IH] using rev_ind.
  - simpl. tauto.
  - rewrite last_provider_snoc. unfold keys_of in *. rewrite map_app, in_app_iff.
    simpl. destruct (String.eqb k (provider_key p)) eqn:E.
    + apply String.eqb_eq in E. split; [discriminate | intro H; exfalso; auto].
    + apply String.eqb_neq in E. rewrite IH. split.
      * intros H [H1 | [H1 | []]]; [tauto | congruence].
      * tauto.
Qed.

Lemma get_prop_registered k P c :
  get_prop k (registered P c)
  = match last_provider k P with
    | Some p => Some (useClass p)
    | None => get_prop k c
    end.
Proof.
  induction P as [|p P IH] using rev_ind; [reflexivity |].
  rewrite registered_snoc, last_provider_snoc.
  destruct (String.eqb k (provider_key p)) eqn:E.
  - apply String.eqb_eq in E. subst. apply get_prop_set_prop_same.
  - apply String.eqb_neq in E. now rewrite get_prop_set_prop_other.
Qed.

Lemma NoDup_registered P c :
  NoDup (map fst c) -> NoDup (map fst (registered P c)).
Proof.
  intro H. induction P as [|p P IH] using rev_ind; [exact H |].
  rewrite registered_snoc. now apply NoDup_set_prop.
Qed.

Lemma In_registered k P c :
  In k (map fst (registered P c)) <-> In k (keys_of P) \/ In k (map fst c).
Proof.
  induction P as [|p P IH] using rev_ind.
  - simpl. tauto.
  - rewrite registered_snoc, In_set_prop, IH. unfold keys_of.
    rewrite map_app, in_app_iff. simpl. intuition congruence.
Qed.

Lemma includes_In l k : ServiceModule.includes l k = true <-> In k l.
Proof.
  unfold ServiceModule.includes. rewrite existsb_exists. split.
  - intros (x & Hx & E). apply String.eqb_eq in E. now subst.
  - intro H. exists k. split; [exact H | apply String.eqb_refl].
Qed.

Lemma includes_not_In l k : ServiceModule.includes l k = false <-> ~ In k l.
Proof.
  rewrite <- includes_In. destruct (ServiceModule.includes l k); split;
    intros; congruence.
Qed.

End Providers.

(** ** The lifecycle methods, as equations on the state *)

Section Lifecycle.

Import ServiceModule.

Ltac open_state s :=
  destruct s as [[d pk i r] b bd bi br];
  unfold read_initialized, read_dependencies, read_providerKeys in *;
  simpl in *.

Lemma forEach_set_provider P c pk i r b bd bi br :
  forEach set_provider P
    {| own := {| dependencies := Some c; providerKeys := pk;
                 _initialized := i; _expressRouter := r |};
       base_providerKeys := b;
       base_dependencies := bd;
       base_initialized := bi;
       base_expressRouter := br |}
  = (Returns tt,
     {| own := {| dependencies := Some (registered P c);
                  providerKeys := option_map (fun l => l ++ keys_of P) pk;
                  _initialized := i; _expressRouter := r |};
        base_providerKeys :=
          match pk with Some _ => b | None => b ++ keys_of P end;
        base_dependencies := bd;
        base_initialized := bi;
        base_expressRouter := br |}).
Proof.
  revert c pk b. induction P as [|p P IH]; intros c pk b.
  - destruct pk; simpl; now rewrite app_nil_r.
  - rewrite forEach_cons.
    unfold set_provider, bind, push_providerKeys, write_providerKeys,
      call_dependencies, write_dependencies, DependencyContainer.register,
      with_own, with_base_providerKeys.
    destruct pk as [l|]; simpl; rewrite IH; simpl;
      now rewrite <- app_assoc.
Qed.

Lemma set_providers_uninitialized P name s :
  read_initialized s = false ->
  set_providers P name s = (Returns tt, provided P s).
Proof.
  intro H. open_state s.
  unfold set_providers, bind, write_dependencies, initialized, read_initialized.
  simpl. rewrite H. simpl. apply forEach_set_provider.
Qed.

Lemma set_providers_initialized P name s :
  read_initialized s = true ->
  set_providers P name s
  = (Throws (ProvidersAfterInit name),
     with_container DependencyContainer.new (_initialized (own s)) s).
Proof.
  intro H. open_state s.
  unfold set_providers, bind, write_dependencies, initialized, read_initialized.
  simpl. now rewrite H.
Qed.

(** [initialize] on the class's own container. *)
Lemma initialize_uninitialized name s c :
  read_initialized s = false ->
  dependencies (own s) = Some c ->
  initialize name s
  = match DependencyContainer.initialize c with
    | (Returns _, c') => (Returns tt, with_container c' (Some true) s)
    | (Throws e, c') => (Throws e, with_container c' (_initialized (own s)) s)
    end.
Proof.
  intros H Hc. open_state s. subst d.
  unfold initialize, bind, initialized, read_initialized, call_dependencies.
  simpl. rewrite H. simpl.
  now destruct (DependencyContainer.initialize c) as [[[]|e] c'].
Qed.

(** [initialize] on an inherited container: the container of the class
    above is materialized in place, the flag set is the class's own. *)
Lemma initialize_inherited name s c :
  read_initialized s = false ->
  dependencies (own s) = None ->
  base_dependencies s = Some c ->
  initialize name s
  = match DependencyContainer.initialize c with
    | (Returns _, c') =>
        (Returns tt, with_inherited_container c' (Some true) s)
    | (Throws e, c') =>
        (Throws e, with_inherited_container c' (_initialized (own s)) s)
    end.
Proof.
  intros H Hc Hb. open_state s. subst d bd.
  unfold initialize, bind, initialized, read_initialized, call_dependencies.
  simpl. rewrite H. simpl.
  now destruct (DependencyContainer.initialize c) as [[[]|e] c'].
Qed.

Lemma initialize_no_container name s :
  read_initialized s = false ->
  read_dependencies s = None ->
  initialize name s = (Throws (undefined_has_no "initialize"), s).
Proof.
  intros H Hc. open_state s. destruct d; [discriminate |]. subst bd.
  unfold initialize, bind, initialized, read_initialized, call_dependencies.
  simpl. now rewrite H.
Qed.

Lemma initialize_initialized name s :
  read_initialized s = true ->
  initialize name s = (Throws (DoubleInitialization name), s).
Proof.
  intro H. unfold initialize, bind, initialized. now rewrite H.
Qed.

Lemma destroy_initialized name s :
  read_initialized s = true ->
  destroy name s = (Returns tt, destroyed s).
Proof.
  intro H. unfold destroy, bind, initialized. now rewrite H.
Qed.

Lemma destroy_uninitialized name s :
  read_initialized s = false ->
  destroy name s = (Throws (NothingToDestroy name), s).
Proof.
  intro H. unfold destroy, bind, initialized. now rewrite H.
Qed.

Lemma resolveDependency_uninitialized dep name s :
  read_initialized s = false ->
  resolveDependency dep name s = (Throws (NotInitialized name), s).
Proof.
  intro H. unfold resolveDependency, bind, initialized. now rewrite H.
Qed.

Lemma resolveDependency_unregistered dep name s :
  read_initialized s = true ->
  includes (read_providerKeys s) (token_key dep) = false ->
  resolveDependency dep name s = (Throws (UnresolvedKey (token_key dep)), s).
Proof.
  intros H Hk. unfold resolveDependency, bind, initialized.
  rewrite H. simpl. now rewrite Hk.
Qed.

Lemma resolveDependency_registered dep name s c :
  read_initialized s = true ->
  includes (read_providerKeys s) (token_key dep) = true ->
  read_dependencies s = Some c ->
  resolveDependency dep name s
  = (Returns (or_undefined (get_prop (token_key dep) c)), s).
Proof.
  intros H Hk Hc. unfold resolveDependency, bind, initialized.
  rewrite H. simpl. rewrite Hk. simpl.
  unfold call_dependencies, DependencyContainer.resolve.
  open_state s. destruct d as [c0|].
  - now injection Hc as ->.
  - now subst bd.
Qed.

Lemma resolveDependency_no_container dep name s :
  read_initialized s = true ->
  includes (read_providerKeys s) (token_key dep) = true ->
  read_dependencies s = None ->
  resolveDependency dep name s = (Throws (undefined_has_no "resolve"), s).
Proof.
  intros H Hk Hc. unfold resolveDependency, bind, initialized.
  rewrite H. simpl. rewrite Hk. simpl.
  unfold call_dependencies.
  open_state s. destruct d; [discriminate |]. now subst bd.
Qed.

Lemma read_providerKeys_provided P s :
  read_providerKeys (provided P s) = read_providerKeys s ++ keys_of P.
Proof. open_state s. now destruct pk. Qed.

End Lifecycle.

(** ** Initialize, then resolve *)

Section InitializeResolve.

Import ServiceModule.

Lemma materialize_cases v x :
  materialize v = Returns x -> materialized_as v x.
Proof.
  unfold materialize, materialized_as. intro H.
  destruct (DependencyContainer.isConstructable v) as [[|]|e] eqn:E;
    [left | right | discriminate].
  - split; [reflexivity |].
    destruct (construct v) as [inst|e] eqn:Ec.
    + destruct (construct_built _ _ Ec) as [r Hr].
      now rewrite (built_from_fun _ _ _ Hr H).
    + rewrite (buildConstructable_throws _ _ E Ec) in H. discriminate.
  - split; [reflexivity |]. now injection H.
Qed.

Lemma initialize_returns_state name s1 c s2 :
  read_initialized s1 = false ->
  dependencies (own s1) = Some c ->
  NoDup (map fst c) ->
  initialize name s1 = (Returns tt, s2) ->
  materializable c
  /\ s2 = with_container
            (map (fun kv => (fst kv, materialized (snd kv))) c) (Some true) s1.
Proof.
  intros Hi Hc Hnd H. rewrite (initialize_uninitialized _ _ _ Hi Hc) in H.
  destruct (DependencyContainer.initialize c) as [[[]|e] c'] eqn:E;
    [| discriminate].
  injection H as <-.
  destruct (initialize_returns _ _ Hnd E) as [Hm ->]. now split.
Qed.

Lemma initialize_total_state name s1 c :
  read_initialized s1 = false ->
  dependencies (own s1) = Some c ->
  materializable c ->
  exists s2, initialize name s1 = (Returns tt, s2).
Proof.
  intros Hi Hc Hm. rewrite (initialize_uninitialized _ _ _ Hi Hc).
  destruct (initialize_total _ Hm) as [c' ->]. eauto.
Qed.

(** In a container whose values all materialize, the entry of the last
    provider of a key holds that provider's materialized value after
    [initialize]. *)
Lemma materialized_entry P k p :
  materializable (registered P DependencyContainer.new) ->
  last_provider k P = Some p ->
  exists x,
    materialized_as (useClass p) x
    /\ get_prop k (map (fun kv => (fst kv, materialized (snd kv)))
                      (registered P DependencyContainer.new)) = Some x.
Proof.
  intros Hm Hp.
  assert (Hg : get_prop k (registered P DependencyContainer.new)
               = Some (useClass p)) by now rewrite get_prop_registered, Hp.
  pose proof (get_prop_Some_In _ _ _ Hg) as Hin.
  unfold materializable in Hm. rewrite Forall_forall in Hm.
  destruct (Hm _ Hin) as [x Hx]. simpl in Hx.
  exists x. split; [now apply materialize_cases |].
  rewrite get_prop_map, Hg. simpl. unfold materialized. now rewrite Hx.
Qed.

Lemma get_prop_materialized_None k (c : DependencyContainer.t) :
  ~ In k (map fst c) ->
  get_prop k (map (fun kv => (fst kv, materialized (snd kv))) c) = None.
Proof.
  intro H. rewrite get_prop_map.
  destruct (get_prop_None k c) as [_ ->]; [reflexivity | exact H].
Qed.

Lemma In_registered_new k P :
  In k (map fst (registered P DependencyContainer.new)) <-> In k (keys_of P).
Proof. rewrite In_registered. simpl. tauto. Qed.

Lemma NoDup_registered_new P :
  NoDup (map fst (registered P DependencyContainer.new)).
Proof. apply NoDup_registered. constructor. Qed.

(** After a completed [initialize] of a container that holds the providers
    [P], every key of [P] that passes the key check resolves to the
    materialized value of its provider. *)
Lemma resolve_materialized P name s1 s2 dep :
  read_initialized s1 = false ->
  dependencies (own s1) = Some (registered P DependencyContainer.new) ->
  (forall k, In k (keys_of P) -> In k (read_providerKeys s1)) ->
  initialize name s1 = (Returns tt, s2) ->
  In (token_key dep) (keys_of P) ->
  exists p r,
    last_provider (token_key dep) P = Some p
    /\ resolveDependency dep name s2 = (Returns r, s2)
    /\ materialized_as (useClass p) r.
Proof.
  intros Hu Hc Hkeys Hi Hk.
  destruct (initialize_returns_state name s1 _ s2 Hu Hc
              (NoDup_registered_new P) Hi) as [Hm ->].
  destruct (last_provider (token_key dep) P) as [p|] eqn:Hp;
    [| apply last_provider_None in Hp; contradiction].
  destruct (materialized_entry P _ p Hm Hp) as (x & Hx & Hg).
  exists p, x. split; [reflexivity |]. split; [| exact Hx].
  erewrite resolveDependency_registered; [| reflexivity | | reflexivity].
  - now rewrite Hg.
  - apply includes_In. now apply Hkeys.
Qed.

End InitializeResolve.

(** * The claims *)

Section Claims.

Import ServiceModule.




(** C3, at a class whose constructor throws a string.  The probe does not
    fail with a "not a constructor" error, yet the class is not classified
    as constructable: reading [err.message.indexOf] throws a TypeError out
    of the classification. *)
Theorem isConstructable_throws_on_thrown_literal :
  construct ThrowsLiteral = Throws (VString "boom")
  /\ ~ raises_not_a_constructor ThrowsLiteral
  /\ DependencyContainer.isConstructable ThrowsLiteral = Throws no_indexOf.
Proof.
  split; [reflexivity |]. split; [| reflexivity].
  intros (e & m & He & Hm & _). injection He as <-. discriminate.
Qed.

(** C5.  On an initialized module the providers setter throws
    ProvidersAfterInit, and the state it leaves has a new empty container
    in place of the old one, with the key list and the flag as they were.
    So the state has changed unless the container was already empty, and
    [resolveDependency] of a registered key then passes the key check and
    returns [undefined]. *)
Theorem set_providers_after_init_empties_container P name s :
  read_initialized s = true ->
  exists s',
    set_providers P name s = (Throws (ProvidersAfterInit name), s')
    /\ read_dependencies s' = Some DependencyContainer.new
    /\ read_providerKeys s' = read_providerKeys s
    /\ read_initialized s' = true
    /\ (read_dependencies s <> Some DependencyContainer.new -> s' <> s)
    /\ forall dep,
         includes (read_providerKeys s) (token_key dep) = true ->
         resolveDependency dep name s' = (Returns VUndefined, s').
Proof.
  intro Hi. rewrite (set_providers_initialized P name s Hi).
  eexists; split; [reflexivity |].
  split; [reflexivity |]. split; [reflexivity |]. split; [exact Hi |]. split.
  - intros Hc E. apply Hc. now rewrite <- E.
  - intros dep Hk.
    now rewrite (resolveDependency_registered dep name _ DependencyContainer.new).
Qed.

Lemma set_providers_after_init_empties_container_witness :
  read_initialized sample_initialized = true
  /\ exists s',
       set_providers [] "A" sample_initialized
       = (Throws (ProvidersAfterInit "A"), s')
       /\ read_dependencies s' = Some DependencyContainer.new
       /\ read_providerKeys s' = read_providerKeys sample_initialized
       /\ read_initialized s' = true
       /\ (read_dependencies sample_initialized <> Some DependencyContainer.new
           -> s' <> sample_initialized)
       /\ forall dep,
            includes (read_providerKeys sample_initialized) (token_key dep) = true ->
            resolveDependency dep "A" s' = (Returns VUndefined, s').
Proof.
  split; [reflexivity |].
  apply (set_providers_after_init_empties_container [] "A" sample_initialized).
  reflexivity.
Defined.




(** C7.  On an initialized module, [resolveDependency] of a key that is not
    in the registered-key list, given as a string or as a class reference of
    that name, throws the UnresolvedKey error, whose message starts with
    "Nothing provided", leaves the module as it was and returns no value. *)
Theorem resolveDependency_unregistered_throws dep name s :
  read_initialized s = true ->
  ~ In (token_key dep) (read_providerKeys s) ->
  resolveDependency dep name s = (Throws (UnresolvedKey (token_key dep)), s)
  /\ UnresolvedKey (token_key dep)
     = VError Error ("Nothing provided for " ++ token_key dep ++ ".")%string
  /\ forall v, fst (resolveDependency dep name s) <> Returns v.
Proof.
  intros Hi Hk. apply includes_not_In in Hk.
  rewrite (resolveDependency_unregistered dep name s Hi Hk).
  split; [reflexivity |]. split; [reflexivity |]. discriminate.
Qed.

Lemma resolveDependency_unregistered_throws_witness :
  read_initialized sample_initialized = true
  /\ ~ In "Missing" (read_providerKeys sample_initialized)
  /\ resolveDependency (Key "Missing") "A" sample_initialized
     = (Throws (VError Error "Nothing provided for Missing."), sample_initialized).
Proof.
  assert (Hk : ~ In "Missing" (read_providerKeys sample_initialized)).
  { simpl. intros [H | [H | []]]; discriminate. }
  split; [reflexivity |]. split; [exact Hk |].
  exact (proj1 (resolveDependency_unregistered_throws (Key "Missing") "A"
                  sample_initialized eq_refl Hk)).
Defined.

(** C10.  Reading [expressRouter] on a module whose flag is unset throws the
    NotInitialized error; on a module whose flag is set it returns the value
    stored in [_expressRouter] and changes nothing.  The value stored is the
    handle the decorator was given. *)
Theorem expressRouter_guarded name s :
  (read_initialized s = false ->
   ExpressServiceModule.expressRouter name s = (Throws (NotInitialized name), s))
  /\ (read_initialized s = true ->
      ExpressServiceModule.expressRouter name s
      = (Returns (read_expressRouter s), s))
  /\ (forall router providers,
        read_expressRouter
          (snd (ExpressServiceModule.expressServiceModule router providers name s))
        = router).
Proof.
  unfold ExpressServiceModule.expressRouter, bind, initialized.
  split; [| split].
  - now intros ->.
  - now intros ->.
  - intros router providers.
    unfold ExpressServiceModule.expressServiceModule, serviceModule, bind,
      write_expressRouter.
    cbv beta iota. set (s1 := with_own _ s).
    destruct (read_initialized s1) eqn:E.
    + now rewrite (set_providers_initialized providers name s1 E).
    + now rewrite (set_providers_uninitialized providers name s1 E).
Qed.

Lemma expressRouter_guarded_witness :
  (read_initialized fresh_module = false
   /\ ExpressServiceModule.expressRouter "Api" fresh_module
      = (Throws (NotInitialized "Api"), fresh_module))
  /\ (read_initialized sample_express = true
      /\ ExpressServiceModule.expressRouter "Api" sample_express
         = (Returns sample_router, sample_express)).
Proof.
  split; (split; [reflexivity |]).
  - exact (proj1 (expressRouter_guarded "Api" fresh_module) eq_refl).
  - exact (proj1 (proj2 (expressRouter_guarded "Api" sample_express)) eq_refl).
Defined.


(** [resolveDependency] depends on the module only through what a caller can
    observe of it. *)
Lemma resolveDependency_observe dep name s s' :
  observe s = observe s' ->
  fst (resolveDependency dep name s) = fst (resolveDependency dep name s').
Proof.
  unfold observe. intros [= Hi Hk Hc].
  destruct (read_initialized s') eqn:Hi'.
  - destruct (includes (read_providerKeys s') (token_key dep)) eqn:Hk'.
    + assert (Hks : includes (read_providerKeys s) (token_key dep) = true)
        by now rewrite Hk.
      destruct (read_dependencies s') as [c|] eqn:Hc'.
      * now rewrite (resolveDependency_registered dep name s c Hi Hks Hc),
          (resolveDependency_registered dep name s' c Hi' Hk' Hc').
      * now rewrite (resolveDependency_no_container dep name s Hi Hks Hc),
          (resolveDependency_no_container dep name s' Hi' Hk' Hc').
    + assert (Hks : includes (read_providerKeys s) (token_key dep) = false)
        by now rewrite Hk.
      now rewrite (resolveDependency_unregistered dep name s Hi Hks),
        (resolveDependency_unregistered dep name s' Hi' Hk').
  - now rewrite (resolveDependency_uninitialized dep name s Hi),
      (resolveDependency_uninitialized dep name s' Hi').
Qed.

(** C9.  On an uninitialized module, the setter with [P1] and then with [P2]
    leaves the key list with [P1]'s keys and then [P2]'s keys appended, and a
    new container that holds exactly [P2]'s entries.  After a completed
    [initialize()], [resolveDependency] of a key that occurs only in [P1]
    passes the key check and returns [undefined]. *)
Theorem set_providers_twice_keeps_first_keys P1 P2 name s :
  read_initialized s = false ->
  let s1 := snd (set_providers P1 name s) in
  let s2 := snd (set_providers P2 name s1) in
  fst (set_providers P1 name s) = Returns tt
  /\ fst (set_providers P2 name s1) = Returns tt
  /\ read_providerKeys s2 = read_providerKeys s ++ keys_of P1 ++ keys_of P2
  /\ read_dependencies s2 = Some (registered P2 DependencyContainer.new)
  /\ (forall k, In k (map fst (registered P2 DependencyContainer.new))
                <-> In k (keys_of P2))
  /\ forall s3 dep,
       initialize name s2 = (Returns tt, s3) ->
       In (token_key dep) (keys_of P1) ->
       ~ In (token_key dep) (keys_of P2) ->
       resolveDependency dep name s3 = (Returns VUndefined, s3).
Proof.
  intros Hu s1 s2. subst s1 s2.
  rewrite (set_providers_uninitialized P1 name s Hu). simpl.
  assert (Hu1 : read_initialized (provided P1 s) = false) by exact Hu.
  rewrite (set_providers_uninitialized P2 name _ Hu1). simpl.
  split; [reflexivity |]. split; [reflexivity |].
  assert (Hkeys : read_providerKeys (provided P2 (provided P1 s))
                  = read_providerKeys s ++ keys_of P1 ++ keys_of P2).
  { now rewrite !read_providerKeys_provided, <- app_assoc. }
  split; [exact Hkeys |]. split; [reflexivity |].
  split; [intro k; exact (In_registered_new k P2) |].
  intros s3 dep Hi H1 H2.
  destruct (initialize_returns_state name (provided P2 (provided P1 s)) _ s3
              Hu1 eq_refl (NoDup_registered_new P2) Hi) as [_ ->].
  erewrite resolveDependency_registered; [| reflexivity | | reflexivity].
  - rewrite get_prop_materialized_None; [reflexivity |].
    now rewrite In_registered_new.
  - apply includes_In.
    change (In (token_key dep) (read_providerKeys (provided P2 (provided P1 s)))).
    rewrite Hkeys. apply in_or_app. right. apply in_or_app. now left.
Qed.

Lemma set_providers_twice_keeps_first_keys_witness :
  read_initialized fresh_module = false
  /\ read_providerKeys
       (snd (set_providers [] "A"
               (snd (set_providers sample_providers "A" fresh_module))))
     = ["Logger"; "config"]
  /\ read_dependencies
       (snd (set_providers [] "A"
               (snd (set_providers sample_providers "A" fresh_module))))
     = Some []
  /\ fst (resolveDependency (Key "Logger") "A"
            (snd (initialize "A"
                    (snd (set_providers [] "A"
                            (snd (set_providers sample_providers "A" fresh_module)))))))
     = Returns VUndefined.
Proof.
  split; [reflexivity |].
  pose proof (set_providers_twice_keeps_first_keys sample_providers [] "A"
                fresh_module eq_refl) as H.
  cbv zeta in H. destruct H as (_ & _ & Hk & Hc & _ & Hr).
  split; [exact Hk |]. split; [exact Hc |].
  refine (f_equal fst
            (Hr (snd (initialize "A"
                        (snd (set_providers [] "A"
                                (snd (set_providers sample_providers "A"
                                        fresh_module))))))
                (Key "Logger") eq_refl _ _));
    simpl; tauto.
Defined.


(** C4.  Whatever providers [P1] a module was configured and initialized
    with, [destroy()], the setter with [P2] and a completed [initialize()]
    leave a module that a caller cannot tell from a fresh module configured
    with [P2] alone: same flag, same key list, same container, same answer to
    every [resolveDependency].  Every key of [P2] resolves to its materialized
    value, and a key that occurs only in [P1] is neither in the key list nor
    in the container. *)
Theorem reinitialize_after_destroy P1 P2 name s0 s2 s4 :
  read_initialized s0 = false ->
  initialize name (snd (set_providers P1 name s0)) = (Returns tt, s2) ->
  initialize name (snd (set_providers P2 name (snd (destroy name s2))))
  = (Returns tt, s4) ->
  fst (destroy name s2) = Returns tt
  /\ fst (set_providers P2 name (snd (destroy name s2))) = Returns tt
  /\ (exists f,
        initialize name (snd (set_providers P2 name fresh_module))
        = (Returns tt, f)
        /\ observe s4 = observe f
        /\ forall dep, fst (resolveDependency dep name s4)
                       = fst (resolveDependency dep name f))
  /\ read_providerKeys s4 = keys_of P2
  /\ (forall dep,
        In (token_key dep) (keys_of P2) ->
        exists p r,
          last_provider (token_key dep) P2 = Some p
          /\ resolveDependency dep name s4 = (Returns r, s4)
          /\ materialized_as (useClass p) r)
  /\ (forall k,
        In k (keys_of P1) -> ~ In k (keys_of P2) ->
        ~ In k (read_providerKeys s4)
        /\ exists c, read_dependencies s4 = Some c /\ get_prop k c = None).
Proof.
  intros Hu H2 H4.
  rewrite (set_providers_uninitialized P1 name s0 Hu) in H2. simpl in H2.
  destruct (initialize_returns_state name (provided P1 s0) _ s2 Hu eq_refl
              (NoDup_registered_new P1) H2) as [_ ->].
  set (s2 := with_container _ (Some true) (provided P1 s0)) in *.
  assert (Hi2 : read_initialized s2 = true) by reflexivity.
  rewrite (destroy_initialized name s2 Hi2) in *. simpl fst. simpl snd in *.
  assert (Hu3 : read_initialized (destroyed s2) = false) by reflexivity.
  rewrite (set_providers_uninitialized P2 name _ Hu3) in *.
  simpl fst. simpl snd in *.
  pose proof H4 as H4'.
  destruct (initialize_returns_state name (provided P2 (destroyed s2)) _ s4
              Hu3 eq_refl (NoDup_registered_new P2) H4) as [Hm Hs4].
  split; [reflexivity |]. split; [reflexivity |].
  assert (Hkeys : read_providerKeys s4 = keys_of P2) by now rewrite Hs4.
  split; [| split; [exact Hkeys | split]].
  - assert (Huf : read_initialized fresh_module = false) by reflexivity.
    rewrite (set_providers_uninitialized P2 name fresh_module Huf). simpl snd.
    destruct (initialize_total_state name (provided P2 fresh_module) _
                Huf eq_refl Hm) as [f Hf].
    exists f. split; [exact Hf |].
    destruct (initialize_returns_state name (provided P2 fresh_module) _ f
                Huf eq_refl (NoDup_registered_new P2) Hf) as [_ Hsf].
    assert (Hobs : observe s4 = observe f) by now rewrite Hs4, Hsf.
    split; [exact Hobs |].
    intro dep. now apply resolveDependency_observe.
  - intros dep Hk.
    apply (resolve_materialized P2 name (provided P2 (destroyed s2)) s4 dep
             Hu3 eq_refl); [| exact H4' | exact Hk].
    intros k Hin. rewrite read_providerKeys_provided. apply in_or_app. now right.
  - intros k _ Hn. split; [now rewrite Hkeys |].
    rewrite Hs4. eexists. split; [reflexivity |].
    apply get_prop_materialized_None. now rewrite In_registered_new.
Qed.


Lemma reinitialize_after_destroy_witness :
  read_initialized fresh_module = false
  /\ read_providerKeys sample_initialized = ["Logger"; "config"]
  /\ read_providerKeys sample_reinitialized = ["LoggerClass"]
  /\ (~ In "config" (read_providerKeys sample_reinitialized)
      /\ exists c, read_dependencies sample_reinitialized = Some c
                   /\ get_prop "config" c = None).
Proof.
  split; [reflexivity |]. split; [reflexivity |].
  destruct (reinitialize_after_destroy sample_providers other_providers "A"
              fresh_module sample_initialized sample_reinitialized
              eq_refl eq_refl eq_refl) as (_ & _ & _ & Hk & _ & Hn).
  split; [exact Hk |].
  apply Hn.
  - simpl. tauto.
  - simpl. intros [H | []]. discriminate.
Defined.

End Claims.

(** ** Several classes in one program *)

Section Programs.

Import ServiceModule.

Lemma Class_eqb_eq a b : Class_eqb a b = true <-> a = b.
Proof.
  revert b. induction a as [|x a IH]; destruct b as [|y b]; simpl;
    try (split; [discriminate | congruence]); [tauto |].
  rewrite andb_true_iff, String.eqb_eq, IH. split.
  - now intros [-> ->].
  - now intros [= -> ->].
Qed.

Lemma Class_eqb_refl a : Class_eqb a a = true.
Proof. now apply Class_eqb_eq. Qed.

Lemma Class_eqb_neq a b : a <> b -> Class_eqb a b = false.
Proof.
  intro H. destruct (Class_eqb a b) eqn:E; [| reflexivity].
  apply Class_eqb_eq in E. contradiction.
Qed.

Lemma update_same c o (s : Classes) : update c o s c = o.
Proof. unfold update. now rewrite Class_eqb_refl. Qed.

Lemma update_other c o (s : Classes) a : a <> c -> update c o s a = s a.
Proof. intro H. unfold update. now rewrite (Class_eqb_neq a c H). Qed.

Lemma is_or_extends_refl c : is_or_extends c c = true.
Proof. destruct c; simpl; now rewrite ?String.eqb_refl, ?Class_eqb_refl. Qed.

Lemma is_or_extends_cons n p a :
  is_or_extends (n :: p) a = true <-> n :: p = a \/ is_or_extends p a = true.
Proof.
  change (is_or_extends (n :: p) a)
    with (Class_eqb (n :: p) a || is_or_extends p a).
  now rewrite orb_true_iff, Class_eqb_eq.
Qed.

Lemma is_or_extends_nil a : is_or_extends [] a = true <-> a = [].
Proof.
  change (is_or_extends [] a) with (Class_eqb [] a || false).
  rewrite orb_false_r, Class_eqb_eq. split; congruence.
Qed.

Lemma is_or_extends_trans c b a :
  is_or_extends c b = true -> is_or_extends b a = true ->
  is_or_extends c a = true.
Proof.
  induction c as [|n p IH]; intros H1 H2.
  - apply is_or_extends_nil in H1. now subst b.
  - apply is_or_extends_cons in H1. destruct H1 as [<- | H1]; [exact H2 |].
    apply is_or_extends_cons. right. now apply IH.
Qed.

(** A lookup finds nothing when no class up the chain has the property. *)
Lemma inherited_None {A} (field : Statics -> option A) (s : Classes) c :
  (forall a, is_or_extends c a = true -> field (s a) = None) ->
  inherited field s c = None.
Proof.
  induction c as [|n p IH]; intro H; simpl.
  - now rewrite (H [] (is_or_extends_refl [])).
  - rewrite (H (n :: p) (is_or_extends_refl _)). apply IH.
    intros a Ha. apply H. apply is_or_extends_cons. now right.
Qed.

Lemma inherited_not_true (s : Classes) c :
  (forall a, is_or_extends c a = true -> _initialized (s a) <> Some true) ->
  inherited _initialized s c <> Some true.
Proof.
  induction c as [|n p IH]; intro H; simpl.
  - pose proof (H [] (is_or_extends_refl [])) as H0.
    now destruct (_initialized (s [])).
  - pose proof (H (n :: p) (is_or_extends_refl _)) as H0.
    destruct (_initialized (s (n :: p))); [exact H0 |].
    apply IH. intros a Ha. apply H. apply is_or_extends_cons. now right.
Qed.

(** What [this.dependencies] and [this._initialized] read is the lookup up
    the chain. *)
Lemma read_dependencies_view (s : Classes) c :
  read_dependencies (view s c) = inherited dependencies s c.
Proof.
  unfold read_dependencies, view. simpl.
  destruct c; simpl; now destruct (dependencies (s _)).
Qed.

Lemma read_initialized_view (s : Classes) c :
  read_initialized (view s c)
  = match inherited _initialized s c with Some b => b | None => false end.
Proof.
  unfold read_initialized, view. simpl.
  destruct c; simpl; now destruct (_initialized (s _)).
Qed.

(** Writing back an array changes no container and no flag; writing back a
    container changes no flag and gives no class a container it had not. *)
Lemma store_providerKeys_others l (s : Classes) c a :
  dependencies (store_providerKeys l s c a) = dependencies (s a)
  /\ _initialized (store_providerKeys l s c a) = _initialized (s a).
Proof.
  induction c as [|n p IH]; simpl.
  - destruct (providerKeys (s [])); [| now split].
    unfold update. destruct (Class_eqb a []) eqn:E; [| now split].
    apply Class_eqb_eq in E. subst. now split.
  - destruct (providerKeys (s (n :: p))); [| exact IH].
    unfold update. destruct (Class_eqb a (n :: p)) eqn:E; [| now split].
    apply Class_eqb_eq in E. subst. now split.
Qed.

Lemma store_dependencies_others d (s : Classes) c a :
  (dependencies (store_dependencies d s c a) = None
   <-> dependencies (s a) = None)
  /\ _initialized (store_dependencies d s c a) = _initialized (s a).
Proof.
  induction c as [|n p IH]; simpl.
  - destruct (dependencies (s [])) eqn:Ed; [| now split].
    unfold update. destruct (Class_eqb a []) eqn:E; [| now split].
    apply Class_eqb_eq in E. subst. simpl. rewrite Ed.
    split; [split; discriminate | reflexivity].
  - destruct (dependencies (s (n :: p))) eqn:Ed; [| exact IH].
    unfold update. destruct (Class_eqb a (n :: p)) eqn:E; [| now split].
    apply Class_eqb_eq in E. subst. simpl. rewrite Ed.
    split; [split; discriminate | reflexivity].
Qed.

Lemma store_same this t (s : Classes) : store this t s this = own t.
Proof. unfold store. apply update_same. Qed.

Lemma store_other this t (s : Classes) a :
  a <> this ->
  (dependencies (store this t s a) = None <-> dependencies (s a) = None)
  /\ _initialized (store this t s a) = _initialized (s a).
Proof.
  intro H. unfold store. rewrite (update_other this _ _ a H).
  destruct this as [|n p]; [now split |]. cbv zeta.
  pose proof (store_providerKeys_others (base_providerKeys t) s p a)
    as [Hd Hi].
  destruct (base_dependencies t) as [d|].
  - pose proof (store_dependencies_others d
                  (store_providerKeys (base_providerKeys t) s p) p a)
      as [Hd' Hi'].
    rewrite Hi', Hi, Hd', Hd. now split.
  - rewrite Hi, Hd. now split.
Qed.

Lemma step_exec s this c :
  step s (this, c) = store this (exec c (class_name this) (view s this)) s.
Proof.
  destruct c; simpl; unfold on;
    match goal with
    | |- context [let '(_, _) := ?m in _] => now destruct m
    end.
Qed.

(** A call other than the setter, on a class that reads no container and an
    unset flag, throws and leaves everything as it is. *)
Lemma exec_unconfigured c name t :
  sets_providers c = false ->
  read_initialized t = false ->
  read_dependencies t = None ->
  exec c name t = t.
Proof.
  intros Hc Hi Hd. destruct c; simpl in *; try discriminate.
  - now rewrite (initialize_no_container name t Hi Hd).
  - now rewrite (destroy_uninitialized name t Hi).
  - now rewrite (resolveDependency_uninitialized dependency name t Hi).
  - unfold ExpressServiceModule.expressRouter, bind, initialized.
    now rewrite Hi.
Qed.

Lemma unconfigured_reads s c :
  unconfigured s c ->
  read_initialized (view s c) = false /\ read_dependencies (view s c) = None.
Proof.
  intro H. split.
  - rewrite read_initialized_view.
    pose proof (inherited_not_true s c (fun a Ha => proj2 (H a Ha))) as Hn.
    now destruct (inherited _initialized s c) as [[|]|].
  - rewrite read_dependencies_view.
    apply inherited_None. intros a Ha. exact (proj1 (H a Ha)).
Qed.

Lemma step_keeps_unconfigured s ev this :
  (is_or_extends this (fst ev) = true -> sets_providers (snd ev) = false) ->
  unconfigured s this ->
  unconfigured (step s ev) this.
Proof.
  intros Hev Hun a Ha. destruct ev as [b k]. simpl in Hev.
  rewrite step_exec. destruct (Hun a Ha) as [Hd Hi].
  destruct (list_eq_dec string_dec a b) as [-> | Hne].
  - rewrite store_same.
    assert (Hb : unconfigured s b).
    { intros x Hx. apply Hun. exact (is_or_extends_trans this b x Ha Hx). }
    destruct (unconfigured_reads s b Hb) as [Hrb Hdb].
    rewrite (exec_unconfigured k _ _ (Hev Ha) Hrb Hdb). now split.
  - destruct (store_other b (exec k (class_name b) (view s b)) s a Hne)
      as [Hd' Hi'].
    rewrite Hi'. split; [now apply Hd' | exact Hi].
Qed.

Lemma run_keeps_unconfigured t s this :
  (forall ev, In ev t -> is_or_extends this (fst ev) = true ->
              sets_providers (snd ev) = false) ->
  unconfigured s this ->
  unconfigured (run t s) this.
Proof.
  revert s. induction t as [|ev t IH]; intros s Ht Hun; [exact Hun |].
  simpl. apply IH.
  - intros ev' Hin. apply Ht. now right.
  - apply step_keeps_unconfigured; [| exact Hun]. apply Ht. now left.
Qed.

Lemma declared_unconfigured c : unconfigured declared c.
Proof.
  intros a _. destruct a; simpl; split; try reflexivity; discriminate.
Qed.

(** C8, as stated, fails at a class that extends a configured module class:
    nothing was ever called on [Child], yet [Child.initialize()] finds the
    container of [Base] up the chain and returns. *)
Lemma initialize_finds_inherited_container :
  (forall ev, In ev inherit_program -> fst ev <> Child)
  /\ read_dependencies (view (run inherit_program declared) Child)
     = Some [("Logger", LoggerClass); ("config", config)]
  /\ fst (on Child initialize (run inherit_program declared)) = Returns tt
  /\ ~ fst (on Child initialize (run inherit_program declared))
       = Throws (undefined_has_no "initialize").
Proof.
  split; [| split; [reflexivity | split; [reflexivity | discriminate]]].
  intros ev [<- | []] E. discriminate E.
Qed.

(** C8, amended.  In a program that never runs the providers setter, by
    assignment or through a decorator, on class [this] or on any class it
    extends, [ServiceModule] included, [this.initialize()] throws the
    TypeError of a method call on [undefined], which is none of the module's
    own errors, and leaves the class as it was. *)
Theorem initialize_without_providers_is_type_error t this :
  (forall ev, In ev t -> is_or_extends this (fst ev) = true ->
              sets_providers (snd ev) = false) ->
  fst (on this initialize (run t declared))
  = Throws (undefined_has_no "initialize")
  /\ ~ taxonomy (undefined_has_no "initialize")
  /\ snd (on this initialize (run t declared)) this = run t declared this.
Proof.
  intro Ht.
  pose proof (run_keeps_unconfigured t declared this Ht
                (declared_unconfigured this)) as Hun.
  destruct (unconfigured_reads _ this Hun) as [Hu Hc].
  pose proof (initialize_no_container (class_name this) _ Hu Hc) as Hi.
  split; [| split].
  - unfold on. now rewrite Hi.
  - intro H. inversion H.
  - unfold on. rewrite Hi. simpl. apply store_same.
Qed.

Lemma initialize_without_providers_is_type_error_witness :
  (forall ev, In ev sample_program -> is_or_extends ["A"] (fst ev) = true ->
              sets_providers (snd ev) = false)
  /\ fst (on ["A"] initialize (run sample_program declared))
     = Throws (VError TypeError "Cannot read property 'initialize' of undefined").
Proof.
  assert (H : forall ev, In ev sample_program ->
                         is_or_extends ["A"] (fst ev) = true ->
                         sets_providers (snd ev) = false).
  { intros ev [<- | [<- | [<- | [<- | []]]]]; simpl; intro E;
      first [discriminate E | reflexivity]. }
  split; [exact H |].
  exact (proj1 (initialize_without_providers_is_type_error sample_program
                  ["A"] H)).
Defined.

(** C1, at two classes [A] and [B] declared side by side.  Setting one
    provider on [A] puts its key in the list [B] reads, and [B], configured
    with no provider and initialized, then answers [undefined] for that key
    where an unregistered key throws UnresolvedKey. *)
Theorem setter_on_one_class_registers_keys_on_another :
  read_providerKeys (view declared ["B"]) = []
  /\ read_providerKeys
       (view (step declared (["A"], SetProviders one_provider)) ["B"])
     = ["k"]
  /\ fst (on ["B"] (resolveDependency (Key "k")) (run leak_program declared))
     = Returns VUndefined.
Proof. repeat split. Qed.

End Programs.

(** ** Further properties of the code *)

Section Further.

Import ServiceModule.

(** When the probe returns or throws something with a string message, a
    value is classified as not constructable exactly when the message says
    "is not a constructor", and as constructable otherwise. *)
Theorem isConstructable_iff v :
  ~ raises_without_message v ->
  (DependencyContainer.isConstructable v = Returns false
   <-> raises_not_a_constructor v)
  /\ (DependencyContainer.isConstructable v = Returns true
      <-> ~ raises_not_a_constructor v).
Proof.
  intro Hm. unfold raises_not_a_constructor.
  destruct (construct v) as [inst|e] eqn:Ec.
  - rewrite (isConstructable_returned v inst Ec). split; split.
    + discriminate.
    + intros (e & m & He & _). discriminate.
    + intros _ (e & m & He & _). discriminate.
    + reflexivity.
  - destruct (message_of e) as [m|] eqn:Em;
      [| exfalso; apply Hm; now exists e].
    rewrite (isConstructable_message v e m Ec Em).
    assert (Hne : "is not a constructor" <> "") by discriminate.
    pose proof (indexOf_contains m "is not a constructor" Hne) as Hi.
    destruct (0 <=? indexOf m "is not a constructor")%Z; simpl; split; split.
    + intros _. exists e, m. split; [reflexivity |]. split; [exact Em |].
      now apply Hi.
    + reflexivity.
    + discriminate.
    + intro H. exfalso. apply H. exists e, m.
      split; [reflexivity |]. split; [exact Em |]. now apply Hi.
    + discriminate.
    + intros (e' & m' & [= <-] & Em' & Hc). rewrite Em in Em'.
      injection Em' as <-. apply Hi in Hc. discriminate.
    + intros _ (e' & m' & [= <-] & Em' & Hc). rewrite Em in Em'.
      injection Em' as <-. apply Hi in Hc. discriminate.
    + reflexivity.
Qed.

Lemma isConstructable_iff_witness :
  ~ raises_without_message config
  /\ (DependencyContainer.isConstructable config = Returns false
      <-> raises_not_a_constructor config).
Proof.
  assert (H : ~ raises_without_message config).
  { intros (e & He & Hm). injection He as <-. discriminate. }
  split; [exact H |]. exact (proj1 (isConstructable_iff config H)).
Defined.

(** A second [initialize()] with no [destroy()] in between throws
    DoubleInitialization and changes nothing. *)
Theorem initialize_twice_throws name s s' :
  initialize name s = (Returns tt, s') ->
  initialize name s' = (Throws (DoubleInitialization name), s').
Proof.
  intro H. apply initialize_initialized.
  destruct (read_initialized s) eqn:Hi.
  - rewrite (initialize_initialized name s Hi) in H. discriminate.
  - destruct (dependencies (own s)) as [c|] eqn:Ho;
      [| destruct (base_dependencies s) as [c|] eqn:Hb].
    + rewrite (initialize_uninitialized name s c Hi Ho) in H.
      destruct (DependencyContainer.initialize c) as [[[]|e] c'];
        [| discriminate].
      now injection H as <-.
    + rewrite (initialize_inherited name s c Hi Ho Hb) in H.
      destruct (DependencyContainer.initialize c) as [[[]|e] c'];
        [| discriminate].
      now injection H as <-.
    + assert (Hc : read_dependencies s = None)
        by (unfold read_dependencies; now rewrite Ho, Hb).
      rewrite (initialize_no_container name s Hi Hc) in H. discriminate.
Qed.

Lemma initialize_twice_throws_witness :
  initialize "A" (snd (set_providers sample_providers "A" fresh_module))
  = (Returns tt, sample_initialized)
  /\ initialize "A" sample_initialized
     = (Throws (DoubleInitialization "A"), sample_initialized).
Proof.
  split; [reflexivity |].
  exact (initialize_twice_throws "A"
           (snd (set_providers sample_providers "A" fresh_module))
           sample_initialized eq_refl).
Defined.

(** On an uninitialized module [destroy()] and [resolveDependency] throw
    their not-initialized errors and change nothing. *)
Theorem uninitialized_guards name s dep :
  read_initialized s = false ->
  destroy name s = (Throws (NothingToDestroy name), s)
  /\ resolveDependency dep name s = (Throws (NotInitialized name), s).
Proof.
  intro H. split.
  - exact (destroy_uninitialized name s H).
  - exact (resolveDependency_uninitialized dep name s H).
Qed.

Lemma uninitialized_guards_witness :
  read_initialized fresh_module = false
  /\ destroy "A" fresh_module
     = (Throws (VError Error "No instance of A has been initialized."),
        fresh_module)
  /\ resolveDependency (Key "Logger") "A" fresh_module
     = (Throws (NotInitialized "A"), fresh_module).
Proof.
  split; [reflexivity |].
  exact (uninitialized_guards "A" fresh_module (Key "Logger") eq_refl).
Defined.

Lemma In_set_prop_entry k v k' v' (ps : list (string * value)) :
  In (k, v) (set_prop k' v' ps) -> (k, v) = (k', v') \/ In (k, v) ps.
Proof.
  induction ps as [|[k2 v2] ps IH]; simpl.
  - intros [H | []]. left. now symmetry.
  - destruct (String.eqb k' k2); simpl.
    + intros [H | H]; [left; now symmetry | right; now right].
    + intros [H | H]; [right; now left |].
      destruct (IH H) as [H' | H']; [now left | right; now right].
Qed.

Lemma In_registered_entry k v P c :
  In (k, v) (registered P c) ->
  (exists p, In p P /\ useClass p = v) \/ In (k, v) c.
Proof.
  induction P as [|p P IH] using rev_ind; [now right |].
  rewrite registered_snoc. intro H.
  destruct (In_set_prop_entry _ _ _ _ _ H) as [[= -> ->] | H'].
  - left. exists p. split; [apply in_or_app; right; now left | reflexivity].
  - destruct (IH H') as [(q & Hq & Hv) | Hc]; [left | now right].
    exists q. split; [apply in_or_app; now left | exact Hv].
Qed.

(** [initialize()] returns whenever the value of every provider
    materializes: on such providers the calls the claims start from do
    complete. *)
Theorem initialize_completes P name s :
  read_initialized s = false ->
  (forall p, In p P -> exists x, materialize (useClass p) = Returns x) ->
  exists s2, initialize name (snd (set_providers P name s)) = (Returns tt, s2).
Proof.
  intros Hu HP. rewrite (set_providers_uninitialized P name s Hu). simpl snd.
  apply (initialize_total_state name (provided P s)
           (registered P DependencyContainer.new) Hu eq_refl).
  unfold materializable. apply Forall_forall. intros [k v] Hin. simpl.
  destruct (In_registered_entry k v P _ Hin) as [(p & Hp & <-) | []].
  now apply HP.
Qed.

Lemma initialize_completes_witness :
  read_initialized fresh_module = false
  /\ (forall p, In p sample_providers ->
                exists x, materialize (useClass p) = Returns x)
  /\ exists s2,
       initialize "A" (snd (set_providers sample_providers "A" fresh_module))
       = (Returns tt, s2).
Proof.
  assert (H : forall p, In p sample_providers ->
                        exists x, materialize (useClass p) = Returns x).
  { intros p [<- | [<- | []]]; eexists; reflexivity. }
  split; [reflexivity |]. split; [exact H |].
  exact (initialize_completes sample_providers "A" fresh_module eq_refl H).
Defined.

End Further.

(** * Further coverage *)

(** ** The container as a map *)

Section ContainerMap.

Lemma map_fst_set_prop_in k v (c : list (string * value)) :
  In k (map fst c) -> map fst (set_prop k v c) = map fst c.
Proof.
  induction c as [|[k' v'] c IH]; simpl; [tauto |].
  destruct (String.eqb k k') eqn:E; simpl.
  - apply String.eqb_eq in E. now subst.
  - apply String.eqb_neq in E. intros [H | H]; [congruence |].
    now rewrite IH.
Qed.

Lemma map_fst_set_prop_new k v (c : list (string * value)) :
  ~ In k (map fst c) -> map fst (set_prop k v c) = map fst c ++ [k].
Proof.
  induction c as [|[k' v'] c IH]; simpl; [reflexivity |].
  destruct (String.eqb k k') eqn:E; simpl.
  - apply String.eqb_eq in E. subst. tauto.
  - intro H. rewrite IH by tauto. reflexivity.
Qed.

(** [resolve] after [register] returns the registered value; every other key
    resolves as before; [resolve] leaves the container as it is; [register]
    overwrites an existing key in place and puts a new key last. *)
Theorem register_then_resolve key v (c : DependencyContainer.t) :
  fst (DependencyContainer.resolve key
         (snd (DependencyContainer.register key v c))) = Returns v
  /\ (forall k, k <> key ->
        fst (DependencyContainer.resolve k
               (snd (DependencyContainer.register key v c)))
        = fst (DependencyContainer.resolve k c))
  /\ snd (DependencyContainer.resolve key c) = c
  /\ (In key (map fst c) ->
      map fst (snd (DependencyContainer.register key v c)) = map fst c)
  /\ (~ In key (map fst c) ->
      map fst (snd (DependencyContainer.register key v c)) = map fst c ++ [key]).
Proof.
  unfold DependencyContainer.resolve, DependencyContainer.register. simpl.
  split; [now rewrite get_prop_set_prop_same |].
  split; [intros k Hk; now rewrite get_prop_set_prop_other |].
  split; [reflexivity |].
  split; [apply map_fst_set_prop_in | apply map_fst_set_prop_new].
Qed.

End ContainerMap.

(** ** The [initialize] loops of both container versions *)

Lemma forEach_app {S A} (f : A -> M S unit) l1 l2 s :
  forEach f (l1 ++ l2) s
  = match forEach f l1 s with
    | (Returns _, s') => forEach f l2 s'
    | (Throws e, s') => (Throws e, s')
    end.
Proof.
  revert s. induction l1 as [|a l1 IH]; intro s; [reflexivity |].
  rewrite <- app_comm_cons, !forEach_cons.
  destruct (f a s) as [[[]|e] s']; [apply IH | reflexivity].
Qed.

Section Loop.

(** A loop body that computes a value from the stored one and registers it
    under the same key. *)
Variable compute : value -> outcome value.
Variable entry : InjectionKey * value -> M DependencyContainer.t unit.
Hypothesis entry_eq : forall k v c,
  entry (k, v) c
  = match compute v with
    | Returns x => (Returns tt, set_prop k x c)
    | Throws e => (Throws e, c)
    end.

Lemma loop_keeps_keys es c :
  (forall kv, In kv es -> In (fst kv) (map fst c)) ->
  map fst (snd (forEach entry es c)) = map fst c.
Proof.
  revert c. induction es as [|[k v] es IH]; intros c H; [reflexivity |].
  rewrite forEach_cons, entry_eq.
  destruct (compute v) as [x|e]; [| reflexivity].
  assert (Hk : In k (map fst c)) by exact (H (k, v) (or_introl eq_refl)).
  rewrite IH.
  - now apply map_fst_set_prop_in.
  - intros kv Hin. rewrite map_fst_set_prop_in by exact Hk.
    apply H. now right.
Qed.

Variable result : value -> value.

Lemma loop_returns (pre es post : DependencyContainer.t) :
  NoDup (map fst (pre ++ es)) ->
  (forall kv, In kv es -> compute (snd kv) = Returns (result (snd kv))) ->
  forEach entry es (pre ++ es ++ post)
  = (Returns tt,
     pre ++ map (fun kv => (fst kv, result (snd kv))) es ++ post).
Proof.
  revert pre. induction es as [|[k v] es IH]; intros pre Hnd Hes; [reflexivity |].
  pose proof (Hes (k, v) (or_introl eq_refl)) as Hv. simpl in Hv.
  rewrite forEach_cons, entry_eq, Hv.
  simpl snd. simpl app. simpl fst. rewrite set_prop_middle.
  - change (pre ++ (k, result v) :: es ++ post)
      with (pre ++ [(k, result v)] ++ es ++ post).
    rewrite app_assoc, IH.
    + now rewrite <- app_assoc.
    + rewrite <- app_assoc. simpl.
      rewrite map_app in *. simpl in *. exact Hnd.
    + intros kv Hin. apply Hes. now right.
  - rewrite map_app in Hnd. simpl in Hnd.
    apply NoDup_remove_2 in Hnd. intro Hin. apply Hnd.
    apply in_or_app. now left.
Qed.

Lemma loop_stops (c1 c2 : DependencyContainer.t) k v e :
  NoDup (map fst c1) ->
  (forall kv, In kv c1 -> compute (snd kv) = Returns (result (snd kv))) ->
  compute v = Throws e ->
  forEach entry (c1 ++ (k, v) :: c2) (c1 ++ (k, v) :: c2)
  = (Throws e, map (fun kv => (fst kv, result (snd kv))) c1 ++ (k, v) :: c2).
Proof.
  intros Hnd H1 Hv. rewrite forEach_app.
  pose proof (loop_returns [] c1 ((k, v) :: c2) Hnd H1) as Hr.
  simpl app in Hr. rewrite Hr.
  now rewrite forEach_cons, entry_eq, Hv.
Qed.

End Loop.

Section BothVersions.

Lemma src_initialize_entry_eq k v c :
  Src.DependencyContainer.initialize_entry (k, v) c
  = match construct v with
    | Returns x => (Returns tt, set_prop k x c)
    | Throws e => (Throws e, c)
    end.
Proof.
  unfold Src.DependencyContainer.initialize_entry, bind, lift,
    Src.DependencyContainer.register.
  now destruct (construct v).
Qed.

Lemma materializable_result (c : DependencyContainer.t) :
  materializable c ->
  forall kv, In kv c -> materialize (snd kv) = Returns (materialized (snd kv)).
Proof.
  intros H kv Hin. unfold materializable in H. rewrite Forall_forall in H.
  destruct (H kv Hin) as [x Hx]. unfold materialized. now rewrite Hx.
Qed.

Lemma all_construct_result (c : DependencyContainer.t) :
  all_construct c ->
  forall kv, In kv c -> construct (snd kv) = Returns (constructed (snd kv)).
Proof.
  intros H kv Hin. unfold all_construct in H. rewrite Forall_forall in H.
  destruct (H kv Hin) as [x Hx]. unfold constructed. now rewrite Hx.
Qed.

(** [initialize] never adds, drops or reorders the keys of the container,
    whether it returns or throws. *)
Theorem initialize_keeps_keys (c : DependencyContainer.t) :
  map fst (snd (DependencyContainer.initialize c)) = map fst c
  /\ map fst (snd (Src.DependencyContainer.initialize c)) = map fst c.
Proof.
  split.
  - apply (loop_keeps_keys materialize _ initialize_entry_eq).
    intros kv Hin. now apply in_map.
  - apply (loop_keeps_keys construct _ src_initialize_entry_eq).
    intros kv Hin. now apply in_map.
Qed.

(** [initialize] stops at the first entry whose materialization throws: it
    throws that error, the entries before it hold their materialized values,
    and that entry and the ones after it are left raw. *)
Theorem initialize_stops_at_first_failure (c1 c2 : DependencyContainer.t) k v e :
  NoDup (map fst c1) ->
  materializable c1 ->
  materialize v = Throws e ->
  DependencyContainer.initialize (c1 ++ (k, v) :: c2)
  = (Throws e,
     map (fun kv => (fst kv, materialized (snd kv))) c1 ++ (k, v) :: c2).
Proof.
  intros Hnd Hm Hv.
  exact (loop_stops materialize _ initialize_entry_eq materialized
           c1 c2 k v e Hnd (materializable_result c1 Hm) Hv).
Qed.

Lemma initialize_stops_at_first_failure_witness :
  NoDup (map fst [("Logger", LoggerClass)])
  /\ materializable [("Logger", LoggerClass)]
  /\ materialize NeedsState = Throws (VError Error "missing required state")
  /\ DependencyContainer.initialize
       [("Logger", LoggerClass); ("state", NeedsState); ("Other", LoggerClass)]
     = (Throws (VError Error "missing required state"),
        [("Logger", VObject "LoggerClass"
                      [("lines", VNumber 0); ("level", VString "info")]);
         ("state", NeedsState); ("Other", LoggerClass)]).
Proof.
  assert (Hnd : NoDup (map fst [("Logger", LoggerClass)])).
  { constructor; [simpl; tauto | constructor]. }
  assert (Hm : materializable [("Logger", LoggerClass)]).
  { constructor; [eexists; reflexivity | constructor]. }
  split; [exact Hnd |]. split; [exact Hm |]. split; [reflexivity |].
  exact (initialize_stops_at_first_failure [("Logger", LoggerClass)]
           [("Other", LoggerClass)] "state" NeedsState _ Hnd Hm eq_refl).
Defined.

(** The version without the probe calls [new] on every value: at the first
    value that is not a constructor, or whose constructor throws, it throws
    that error, with the entries before it instantiated and the rest raw.  A
    value provider such as a plain object therefore makes it fail with the
    "is not a constructor" TypeError. *)
Theorem src_initialize_stops_at_first_failure
    (c1 c2 : DependencyContainer.t) k v e :
  NoDup (map fst c1) ->
  all_construct c1 ->
  construct v = Throws e ->
  Src.DependencyContainer.initialize (c1 ++ (k, v) :: c2)
  = (Throws e,
     map (fun kv => (fst kv, constructed (snd kv))) c1 ++ (k, v) :: c2).
Proof.
  intros Hnd Hc Hv.
  exact (loop_stops construct _ src_initialize_entry_eq constructed
           c1 c2 k v e Hnd (all_construct_result c1 Hc) Hv).
Qed.

Lemma src_initialize_stops_at_first_failure_witness :
  NoDup (map fst [("Logger", LoggerClass)])
  /\ all_construct [("Logger", LoggerClass)]
  /\ construct config = Throws not_a_constructor
  /\ Src.DependencyContainer.initialize
       [("Logger", LoggerClass); ("config", config)]
     = (Throws (VError TypeError "object is not a constructor"),
        [("Logger", VObject "LoggerClass" [("lines", VNumber 0)]);
         ("config", config)]).
Proof.
  assert (Hnd : NoDup (map fst [("Logger", LoggerClass)])).
  { constructor; [simpl; tauto | constructor]. }
  assert (Hc : all_construct [("Logger", LoggerClass)]).
  { constructor; [eexists; reflexivity | constructor]. }
  split; [exact Hnd |]. split; [exact Hc |]. split; [reflexivity |].
  exact (src_initialize_stops_at_first_failure [("Logger", LoggerClass)]
           [] "config" config _ Hnd Hc eq_refl).
Defined.

End BothVersions.


(** ** The state each method leaves *)

Section MethodStates.

Import ServiceModule.

Lemma initialize_state name s :
  snd (initialize name s)
  = if read_initialized s then s
    else match dependencies (own s) with
         | Some c =>
             match DependencyContainer.initialize c with
             | (Returns _, c') => with_container c' (Some true) s
             | (Throws _, c') => with_container c' (_initialized (own s)) s
             end
         | None =>
             match base_dependencies s with
             | Some c =>
                 match DependencyContainer.initialize c with
                 | (Returns _, c') =>
                     with_inherited_container c' (Some true) s
                 | (Throws _, c') =>
                     with_inherited_container c' (_initialized (own s)) s
                 end
             | None => s
             end
         end.
Proof.
  destruct (read_initialized s) eqn:Hi.
  - now rewrite (initialize_initialized name s Hi).
  - destruct (dependencies (own s)) as [c|] eqn:Ho;
      [| destruct (base_dependencies s) as [c|] eqn:Hb].
    + rewrite (initialize_uninitialized name s c Hi Ho).
      now destruct (DependencyContainer.initialize c) as [[[]|e] c'].
    + rewrite (initialize_inherited name s c Hi Ho Hb).
      now destruct (DependencyContainer.initialize c) as [[[]|e] c'].
    + assert (Hc : read_dependencies s = None)
        by (unfold read_dependencies; now rewrite Ho, Hb).
      now rewrite (initialize_no_container name s Hi Hc).
Qed.

Lemma destroy_state name s :
  snd (destroy name s) = if read_initialized s then destroyed s else s.
Proof.
  destruct (read_initialized s) eqn:Hi.
  - now rewrite (destroy_initialized name s Hi).
  - now rewrite (destroy_uninitialized name s Hi).
Qed.

Lemma set_providers_state P name s :
  snd (set_providers P name s)
  = if read_initialized s
    then with_container DependencyContainer.new (_initialized (own s)) s
    else provided P s.
Proof.
  destruct (read_initialized s) eqn:Hi.
  - now rewrite (set_providers_initialized P name s Hi).
  - now rewrite (set_providers_uninitialized P name s Hi).
Qed.

Lemma resolveDependency_state dep name s :
  snd (resolveDependency dep name s) = s.
Proof.
  destruct (read_initialized s) eqn:Hi;
    [| now rewrite (resolveDependency_uninitialized dep name s Hi)].
  destruct (includes (read_providerKeys s) (token_key dep)) eqn:Hk;
    [| now rewrite (resolveDependency_unregistered dep name s Hi Hk)].
  destruct (read_dependencies s) as [c|] eqn:Hc.
  - now rewrite (resolveDependency_registered dep name s c Hi Hk Hc).
  - now rewrite (resolveDependency_no_container dep name s Hi Hk Hc).
Qed.

Lemma expressRouter_state name s :
  snd (ExpressServiceModule.expressRouter name s) = s.
Proof.
  unfold ExpressServiceModule.expressRouter, bind, initialized, throw.
  now destruct (read_initialized s).
Qed.

Lemma expressServiceModule_state router P name s :
  snd (ExpressServiceModule.expressServiceModule router P name s)
  = snd (set_providers P name (snd (write_expressRouter router s))).
Proof.
  unfold ExpressServiceModule.expressServiceModule, serviceModule, bind.
  simpl. now destruct (set_providers P name _) as [[[]|e] s'].
Qed.

Lemma dc_initialize_keys (c : DependencyContainer.t) :
  map fst (snd (DependencyContainer.initialize c)) = map fst c.
Proof.
  apply (loop_keeps_keys materialize _ initialize_entry_eq).
  intros kv Hin. now apply in_map.
Qed.

End MethodStates.

(** ** Lifecycle edges *)

Section LifecycleEdges.

Import ServiceModule.

(** When [initialize()] throws on an uninitialized module (there is no
    container, or a provider's value fails to materialize), the module stays
    uninitialized: the flag, the key list, the router handle and the keys of
    the container are as before, and [resolveDependency] still throws the
    NotInitialized error. *)
Theorem failed_initialize_stays_uninitialized name s e s' :
  read_initialized s = false ->
  initialize name s = (Throws e, s') ->
  read_initialized s' = false
  /\ read_providerKeys s' = read_providerKeys s
  /\ read_expressRouter s' = read_expressRouter s
  /\ option_map (map fst) (read_dependencies s')
     = option_map (map fst) (read_dependencies s)
  /\ forall dep,
       resolveDependency dep name s' = (Throws (NotInitialized name), s').
Proof.
  intros Hu H.
  assert (Hu' : read_initialized s' = false
                /\ read_providerKeys s' = read_providerKeys s
                /\ read_expressRouter s' = read_expressRouter s
                /\ option_map (map fst) (read_dependencies s')
                   = option_map (map fst) (read_dependencies s)).
  { destruct (dependencies (own s)) as [c|] eqn:Ho;
      [| destruct (base_dependencies s) as [c|] eqn:Hb].
    - rewrite (initialize_uninitialized name s c Hu Ho) in H.
      pose proof (dc_initialize_keys c) as Hk.
      destruct (DependencyContainer.initialize c) as [[[]|e0] c'];
        [discriminate |].
      injection H as _ <-. simpl in Hk.
      split; [exact Hu |]. split; [reflexivity |]. split; [reflexivity |].
      unfold read_dependencies, with_container, with_own. simpl.
      rewrite Ho. simpl. now rewrite Hk.
    - rewrite (initialize_inherited name s c Hu Ho Hb) in H.
      pose proof (dc_initialize_keys c) as Hk.
      destruct (DependencyContainer.initialize c) as [[[]|e0] c'];
        [discriminate |].
      injection H as _ <-. simpl in Hk.
      split; [exact Hu |]. split; [reflexivity |]. split; [reflexivity |].
      unfold read_dependencies, with_inherited_container,
        with_base_dependencies, with_own. simpl.
      rewrite Ho, Hb. simpl. now rewrite Hk.
    - assert (Hc : read_dependencies s = None)
        by (unfold read_dependencies; now rewrite Ho, Hb).
      rewrite (initialize_no_container name s Hu Hc) in H.
      injection H as _ <-. now repeat split. }
  destruct Hu' as (H1 & H2 & H3 & H4).
  repeat split; trivial.
  intro dep. now apply resolveDependency_uninitialized.
Qed.

Lemma failed_initialize_stays_uninitialized_witness :
  read_initialized (snd (set_providers failing_providers "A" fresh_module))
  = false
  /\ fst (initialize "A" (snd (set_providers failing_providers "A" fresh_module)))
     = Throws (VError Error "missing required state")
  /\ read_providerKeys
       (snd (initialize "A"
               (snd (set_providers failing_providers "A" fresh_module))))
     = ["Logger"; "state"; "Other"]
  /\ fst (resolveDependency (Key "Logger") "A"
            (snd (initialize "A"
                    (snd (set_providers failing_providers "A" fresh_module)))))
     = Throws (NotInitialized "A").
Proof.
  split; [reflexivity |]. split; [reflexivity |].
  destruct (failed_initialize_stays_uninitialized "A"
              (snd (set_providers failing_providers "A" fresh_module))
              (VError Error "missing required state")
              (snd (initialize "A"
                      (snd (set_providers failing_providers "A" fresh_module))))
              eq_refl eq_refl) as (_ & Hk & _ & _ & Hr).
  split; [exact Hk |]. now rewrite Hr.
Defined.

(** After [destroy()], [initialize()] returns even though no providers were
    set again: the module is initialized with an empty container and an
    empty key list, and every [resolveDependency] throws UnresolvedKey. *)
Theorem initialize_after_destroy_without_providers name s :
  read_initialized s = true ->
  exists s2,
    initialize name (snd (destroy name s)) = (Returns tt, s2)
    /\ read_initialized s2 = true
    /\ read_providerKeys s2 = []
    /\ read_dependencies s2 = Some DependencyContainer.new
    /\ forall dep,
         resolveDependency dep name s2
         = (Throws (UnresolvedKey (token_key dep)), s2).
Proof.
  intro Hi. rewrite (destroy_initialized name s Hi). simpl snd.
  rewrite (initialize_uninitialized name (destroyed s) DependencyContainer.new
             eq_refl eq_refl).
  simpl. eexists. split; [reflexivity |].
  split; [reflexivity |]. split; [reflexivity |]. split; [reflexivity |].
  intro dep. now apply resolveDependency_unregistered.
Qed.

Lemma initialize_after_destroy_without_providers_witness :
  read_initialized sample_initialized = true
  /\ exists s2,
       initialize "A" (snd (destroy "A" sample_initialized)) = (Returns tt, s2)
       /\ read_initialized s2 = true
       /\ read_providerKeys s2 = []
       /\ read_dependencies s2 = Some DependencyContainer.new
       /\ forall dep,
            resolveDependency dep "A" s2
            = (Throws (UnresolvedKey (token_key dep)), s2).
Proof.
  split; [reflexivity |].
  exact (initialize_after_destroy_without_providers "A" sample_initialized
           eq_refl).
Defined.

(** [resolveDependency] and the [expressRouter] accessor never change the
    module, whether they return or throw. *)
Theorem reads_change_nothing dep name s :
  snd (resolveDependency dep name s) = s
  /\ snd (ExpressServiceModule.expressRouter name s) = s.
Proof.
  split; [apply resolveDependency_state | apply expressRouter_state].
Qed.

(** Only the express decorator writes the router handle: [initialize],
    [destroy], the providers setter, [resolveDependency] and the accessor
    leave it as it is, so a handle survives [destroy()] and a new
    [initialize()]. *)
Theorem only_decorator_writes_router c name s :
  (forall router providers, c <> DecorateExpress router providers) ->
  read_expressRouter (exec c name s) = read_expressRouter s.
Proof.
  intro Hc. destruct c; simpl.
  - rewrite initialize_state.
    destruct (read_initialized s); [reflexivity |].
    destruct (dependencies (own s)) as [c|];
      [| destruct (base_dependencies s) as [c|]; [| reflexivity]];
      now destruct (DependencyContainer.initialize c) as [[[]|e] c'].
  - rewrite destroy_state. now destruct (read_initialized s).
  - rewrite set_providers_state. now destruct (read_initialized s).
  - now rewrite resolveDependency_state.
  - now rewrite expressRouter_state.
  - exfalso. exact (Hc router providers eq_refl).
Qed.

Lemma only_decorator_writes_router_witness :
  (forall router providers, Destroy <> DecorateExpress router providers)
  /\ read_expressRouter (exec Destroy "Api" sample_express) = sample_router.
Proof.
  assert (H : forall router providers,
                Destroy <> DecorateExpress router providers)
    by (intros; discriminate).
  split; [exact H |].
  exact (only_decorator_writes_router Destroy "Api" sample_express H).
Defined.

(** The express decorator applied to an initialized module throws
    ProvidersAfterInit, yet it has already stored the new router handle and
    replaced the container with an empty one; the module stays initialized,
    so the accessor now returns the new handle. *)
Theorem decorating_initialized_module_swaps_router router P name s :
  read_initialized s = true ->
  exists s',
    ExpressServiceModule.expressServiceModule router P name s
    = (Throws (ProvidersAfterInit name), s')
    /\ read_expressRouter s' = router
    /\ read_dependencies s' = Some DependencyContainer.new
    /\ read_providerKeys s' = read_providerKeys s
    /\ ExpressServiceModule.expressRouter name s' = (Returns router, s').
Proof.
  intro Hi.
  unfold ExpressServiceModule.expressServiceModule, serviceModule, bind,
    write_expressRouter.
  cbv beta iota. set (s1 := with_own _ s).
  assert (Hi1 : read_initialized s1 = true) by exact Hi.
  rewrite (set_providers_initialized P name s1 Hi1).
  eexists. split; [reflexivity |].
  split; [reflexivity |]. split; [reflexivity |]. split; [reflexivity |].
  unfold ExpressServiceModule.expressRouter, bind, initialized.
  assert (Hi2 : read_initialized
                  (with_container DependencyContainer.new
                     (_initialized (own s1)) s1) = true) by exact Hi.
  now rewrite Hi2.
Qed.

Lemma decorating_initialized_module_swaps_router_witness :
  read_initialized sample_express = true
  /\ exists s',
       ExpressServiceModule.expressServiceModule (VString "other router") []
         "Api" sample_express
       = (Throws (ProvidersAfterInit "Api"), s')
       /\ read_expressRouter s' = VString "other router"
       /\ read_dependencies s' = Some DependencyContainer.new
       /\ read_providerKeys s' = read_providerKeys sample_express
       /\ ExpressServiceModule.expressRouter "Api" s'
          = (Returns (VString "other router"), s').
Proof.
  split; [reflexivity |].
  exact (decorating_initialized_module_swaps_router (VString "other router") []
           "Api" sample_express eq_refl).
Defined.

(** On an uninitialized module the setter returns and the new container
    holds one entry per distinct key of [P], each with the raw [useClass] of
    the last provider declared with that key, while the key list grows by
    one key per provider, repetitions included; the flag stays unset. *)
Theorem set_providers_registers P name s :
  read_initialized s = false ->
  exists c,
    set_providers P name s
    = (Returns tt, snd (set_providers P name s))
    /\ read_dependencies (snd (set_providers P name s)) = Some c
    /\ NoDup (map fst c)
    /\ (forall k, In k (map fst c) <-> In k (keys_of P))
    /\ (forall k, get_prop k c = option_map useClass (last_provider k P))
    /\ length (read_providerKeys (snd (set_providers P name s)))
       = length (read_providerKeys s) + length P
    /\ read_initialized (snd (set_providers P name s)) = false.
Proof.
  intro Hu. rewrite (set_providers_uninitialized P name s Hu). simpl snd.
  exists (registered P DependencyContainer.new).
  split; [reflexivity |]. split; [reflexivity |].
  split; [apply NoDup_registered_new |].
  split; [intro k; exact (In_registered_new k P) |].
  split; [| split; [| exact Hu]].
  - intro k. rewrite get_prop_registered.
    now destruct (last_provider k P).
  - rewrite read_providerKeys_provided, length_app.
    unfold keys_of. now rewrite length_map.
Qed.

Lemma set_providers_registers_witness :
  read_initialized fresh_module = false
  /\ exists c,
       read_dependencies
         (snd (set_providers
                 (sample_providers ++ [ {| provide := Key "Logger";
                                           useClass := config |} ])
                 "A" fresh_module)) = Some c
       /\ get_prop "Logger" c = Some config
       /\ length (read_providerKeys
                    (snd (set_providers
                            (sample_providers
                               ++ [ {| provide := Key "Logger";
                                       useClass := config |} ])
                            "A" fresh_module))) = 3.
Proof.
  split; [reflexivity |].
  destruct (set_providers_registers
              (sample_providers ++ [ {| provide := Key "Logger";
                                        useClass := config |} ])
              "A" fresh_module eq_refl)
    as (c & _ & Hc & _ & _ & Hg & Hl & _).
  exists c. split; [exact Hc |]. split; [exact (Hg "Logger") | exact Hl].
Defined.

End LifecycleEdges.

(** ** What every program keeps true *)

Section ProgramInvariants.

Import ServiceModule.

Lemma inherited_Some {A} (field : Statics -> option A) (s : Classes) c v :
  inherited field s c = Some v ->
  exists a, is_or_extends c a = true /\ field (s a) = Some v.
Proof.
  induction c as [|n p IH]; cbn [inherited].
  - destruct (field (s [])) eqn:E; [| discriminate].
    intros [= ->]. exists []. now split.
  - destruct (field (s (n :: p))) eqn:E.
    + intros [= ->]. exists (n :: p). split; [apply is_or_extends_refl | exact E].
    + intro H. destruct (IH H) as (a & Ha & Hv). exists a.
      split; [| exact Hv]. apply is_or_extends_cons. now right.
Qed.

Lemma inherited_from_chain {A} (field : Statics -> option A) (s : Classes) c a :
  is_or_extends c a = true ->
  inherited field s a <> None ->
  inherited field s c <> None.
Proof.
  induction c as [|n p IH]; intros Ha H.
  - apply is_or_extends_nil in Ha. now subst a.
  - apply is_or_extends_cons in Ha. destruct Ha as [<- | Ha]; [exact H |].
    simpl. destruct (field (s (n :: p))); [discriminate | now apply IH].
Qed.

Lemma inherited_dependencies_mono (s s' : Classes) c :
  (forall x, dependencies (s x) <> None -> dependencies (s' x) <> None) ->
  inherited dependencies s c <> None ->
  inherited dependencies s' c <> None.
Proof.
  intro H. induction c as [|n p IH]; simpl.
  - pose proof (H []) as H0.
    destruct (dependencies (s [])); [| congruence].
    intros _. destruct (dependencies (s' [])); [discriminate |].
    exfalso. now apply H0.
  - pose proof (H (n :: p)) as H0.
    destruct (dependencies (s' (n :: p))); [discriminate |].
    destruct (dependencies (s (n :: p))); [| exact IH].
    exfalso. now apply H0.
Qed.

(** No method takes away the own container of the class it is called on. *)
Lemma exec_keeps_own_dependencies c name t :
  dependencies (own t) <> None ->
  dependencies (own (exec c name t)) <> None.
Proof.
  assert (Hs : forall P u, dependencies (own (snd (set_providers P name u)))
                           <> None).
  { intros P u. rewrite set_providers_state.
    now destruct (read_initialized u). }
  intro H. destruct c; simpl.
  - rewrite initialize_state. destruct (read_initialized t); [exact H |].
    destruct (dependencies (own t)) as [c|]; [| congruence].
    now destruct (DependencyContainer.initialize c) as [[[]|e] c'].
  - rewrite destroy_state. now destruct (read_initialized t).
  - apply Hs.
  - now rewrite resolveDependency_state.
  - now rewrite expressRouter_state.
  - rewrite expressServiceModule_state. apply Hs.
Qed.

(** A method sets the own flag only after it found a container. *)
Lemma exec_sets_flag c name t :
  _initialized (own (exec c name t)) = Some true ->
  _initialized (own t) = Some true \/ read_dependencies t <> None.
Proof.
  assert (Hs : forall P u,
             _initialized (own (snd (set_providers P name u)))
             = _initialized (own u)).
  { intros P u. rewrite set_providers_state.
    now destruct (read_initialized u). }
  destruct c; simpl.
  - rewrite initialize_state. destruct (read_initialized t); [now left |].
    unfold read_dependencies.
    destruct (dependencies (own t)) as [c|];
      [right; discriminate |].
    destruct (base_dependencies t) as [c|]; [right; discriminate | now left].
  - rewrite destroy_state. destruct (read_initialized t);
      [discriminate | now left].
  - rewrite Hs. now left.
  - rewrite resolveDependency_state. now left.
  - rewrite expressRouter_state. now left.
  - rewrite expressServiceModule_state, Hs. now left.
Qed.

Lemma step_keeps_dependencies s ev x :
  dependencies (s x) <> None -> dependencies (step s ev x) <> None.
Proof.
  intro H. destruct ev as [b k]. rewrite step_exec.
  destruct (list_eq_dec string_dec x b) as [-> | Hne].
  - rewrite store_same. now apply exec_keeps_own_dependencies.
  - destruct (store_other b (exec k (class_name b) (view s b)) s x Hne)
      as [Hd _].
    intro E. apply H. now apply Hd.
Qed.

Lemma step_flag_has_container s ev :
  flag_has_container s -> flag_has_container (step s ev).
Proof.
  intros J a Ha.
  apply (inherited_dependencies_mono s (step s ev) a
           (step_keeps_dependencies s ev)).
  destruct ev as [b k]. rewrite step_exec in Ha.
  destruct (list_eq_dec string_dec a b) as [-> | Hne].
  - rewrite store_same in Ha.
    destruct (exec_sets_flag k _ _ Ha) as [H | H].
    + now apply J.
    + now rewrite <- read_dependencies_view.
  - destruct (store_other b (exec k (class_name b) (view s b)) s a Hne)
      as [_ Hi].
    rewrite Hi in Ha. now apply J.
Qed.

Lemma run_flag_has_container t s :
  flag_has_container s -> flag_has_container (run t s).
Proof.
  revert s. induction t as [|ev t IH]; intros s H; [exact H |].
  simpl. apply IH. now apply step_flag_has_container.
Qed.

Lemma declared_flag_has_container : flag_has_container declared.
Proof. intros [|n p]; simpl; discriminate. Qed.

(** In every program, whatever the class hierarchy, whatever calls came
    before and whether they returned or threw, [resolveDependency] returns a
    value or throws one of its own two errors, NotInitialized or
    UnresolvedKey: it never fails on a missing container. *)
Theorem resolveDependency_errors_in_programs t c dep :
  (exists v, fst (on c (resolveDependency dep) (run t declared)) = Returns v)
  \/ fst (on c (resolveDependency dep) (run t declared))
     = Throws (NotInitialized (class_name c))
  \/ fst (on c (resolveDependency dep) (run t declared))
     = Throws (UnresolvedKey (token_key dep)).
Proof.
  pose proof (run_flag_has_container t declared declared_flag_has_container)
    as J.
  unfold on. set (s := run t declared) in *. set (name := class_name c).
  destruct (read_initialized (view s c)) eqn:Hi.
  - destruct (includes (read_providerKeys (view s c)) (token_key dep)) eqn:Hk.
    + destruct (read_dependencies (view s c)) as [d|] eqn:Hd.
      * left.
        rewrite (resolveDependency_registered dep name (view s c) d Hi Hk Hd).
        eexists. reflexivity.
      * exfalso. rewrite read_initialized_view in Hi.
        destruct (inherited _initialized s c) as [[|]|] eqn:Ef;
          try discriminate.
        destruct (inherited_Some _ s c true Ef) as (a & Ha & Hf).
        rewrite read_dependencies_view in Hd.
        exact (inherited_from_chain dependencies s c a Ha (J a Hf) Hd).
    + right. right.
      now rewrite (resolveDependency_unregistered dep name (view s c) Hi Hk).
  - right. left.
    now rewrite (resolveDependency_uninitialized dep name (view s c) Hi).
Qed.

End ProgramInvariants.


(** ** Classes along a chain *)

Section ClassChains.

Import ServiceModule.

Lemma related_refl {A} (R : A -> A -> Prop) o :
  (forall a, R a a) -> related R o o.
Proof. intro H. destruct o; simpl; auto. Qed.

Lemma grown_refl l : grown l l.
Proof. exists []. now rewrite app_nil_r. Qed.

Lemma inherited_related {A} (R : A -> A -> Prop) field (s s' : Classes) c :
  (forall x, is_or_extends c x = true ->
             related R (field (s x)) (field (s' x))) ->
  related R (inherited field s c) (inherited field s' c).
Proof.
  induction c as [|n p IH]; intro H; cbn [inherited].
  - pose proof (H [] (is_or_extends_refl [])) as H0. unfold related in *.
    now destruct (field (s [])), (field (s' [])).
  - pose proof (H (n :: p) (is_or_extends_refl _)) as H0.
    assert (Hp : related R (inherited field s p) (inherited field s' p)).
    { apply IH. intros x Hx. apply H. apply is_or_extends_cons. now right. }
    unfold related in H0.
    destruct (field (s (n :: p))), (field (s' (n :: p)));
      try contradiction; [exact H0 | exact Hp].
Qed.

Lemma inherited_same {A} (field : Statics -> option A) (s s' : Classes) c :
  (forall x, is_or_extends c x = true -> field (s' x) = field (s x)) ->
  inherited field s' c = inherited field s c.
Proof.
  induction c as [|n p IH]; intro H; cbn [inherited].
  - now rewrite (H [] (is_or_extends_refl [])).
  - rewrite (H (n :: p) (is_or_extends_refl _)).
    rewrite IH; [reflexivity |].
    intros x Hx. apply H. apply is_or_extends_cons. now right.
Qed.

Lemma read_providerKeys_view (s : Classes) c :
  read_providerKeys (view s c)
  = match inherited providerKeys s c with Some l => l | None => [] end.
Proof.
  unfold read_providerKeys, view. simpl.
  destruct c; simpl; now destruct (providerKeys (s _)).
Qed.

(** Writing back an array changes the array of one class at most: the
    nearest owner from [p] up. *)
Lemma store_providerKeys_at l (s : Classes) p x :
  providerKeys (store_providerKeys l s p x) = providerKeys (s x)
  \/ (is_or_extends p x = true
      /\ providerKeys (s x) = inherited providerKeys s p
      /\ providerKeys (s x) <> None
      /\ providerKeys (store_providerKeys l s p x) = Some l).
Proof.
  induction p as [|n p IH]; cbn [store_providerKeys inherited].
  - destruct (providerKeys (s [])) eqn:E; [| now left].
    unfold update. destruct (Class_eqb x []) eqn:Ex; [| now left].
    apply Class_eqb_eq in Ex. subst x. right.
    split; [apply is_or_extends_refl |]. rewrite E.
    split; [reflexivity |]. split; [discriminate | reflexivity].
  - destruct (providerKeys (s (n :: p))) eqn:E.
    + unfold update. destruct (Class_eqb x (n :: p)) eqn:Ex; [| now left].
      apply Class_eqb_eq in Ex. subst x. right.
      split; [apply is_or_extends_refl |]. rewrite E.
      split; [reflexivity |]. split; [discriminate | reflexivity].
    + destruct IH as [H | (H0 & H1 & H2 & H3)]; [now left |]. right.
      split; [apply is_or_extends_cons; now right |]. now split.
Qed.

Lemma store_dependencies_at d (s : Classes) p x :
  dependencies (store_dependencies d s p x) = dependencies (s x)
  \/ (dependencies (s x) = inherited dependencies s p
      /\ dependencies (s x) <> None
      /\ dependencies (store_dependencies d s p x) = Some d).
Proof.
  induction p as [|n p IH]; cbn [store_dependencies inherited].
  - destruct (dependencies (s [])) eqn:E; [| now left].
    unfold update. destruct (Class_eqb x []) eqn:Ex; [| now left].
    apply Class_eqb_eq in Ex. subst x. right. rewrite E.
    split; [reflexivity |]. split; [discriminate | reflexivity].
  - destruct (dependencies (s (n :: p))) eqn:E.
    + unfold update. destruct (Class_eqb x (n :: p)) eqn:Ex; [| now left].
      apply Class_eqb_eq in Ex. subst x. right. rewrite E.
      split; [reflexivity |]. split; [discriminate | reflexivity].
    + exact IH.
Qed.

Lemma store_dependencies_providerKeys d (s : Classes) p x :
  providerKeys (store_dependencies d s p x) = providerKeys (s x).
Proof.
  induction p as [|n p IH]; cbn [store_dependencies].
  - destruct (dependencies (s [])); [| reflexivity].
    unfold update. destruct (Class_eqb x []) eqn:Ex; [| reflexivity].
    apply Class_eqb_eq in Ex. now subst x.
  - destruct (dependencies (s (n :: p))); [| exact IH].
    unfold update. destruct (Class_eqb x (n :: p)) eqn:Ex; [| reflexivity].
    apply Class_eqb_eq in Ex. now subst x.
Qed.

(** What a method does to the inherited array and to the inherited
    container. *)
Lemma set_providers_base P name t :
  grown (base_providerKeys t) (base_providerKeys (snd (set_providers P name t)))
  /\ (providerKeys (own t) <> None ->
      base_providerKeys (snd (set_providers P name t)) = base_providerKeys t)
  /\ base_dependencies (snd (set_providers P name t)) = base_dependencies t.
Proof.
  rewrite set_providers_state. destruct (read_initialized t).
  - split; [apply grown_refl |]. now split.
  - unfold provided. cbn [base_providerKeys base_dependencies].
    destruct (providerKeys (own t)).
    + split; [apply grown_refl |]. now split.
    + split; [now exists (keys_of P) |]. split; [congruence | reflexivity].
Qed.

Lemma exec_base_providerKeys k name t :
  grown (base_providerKeys t) (base_providerKeys (exec k name t))
  /\ (providerKeys (own t) <> None ->
      base_providerKeys (exec k name t) = base_providerKeys t).
Proof.
  destruct k; cbn [exec].
  - rewrite initialize_state. destruct (read_initialized t);
      [split; [apply grown_refl | reflexivity] |].
    destruct (dependencies (own t)) as [c|].
    + destruct (DependencyContainer.initialize c) as [[[]|e] c'];
        (split; [apply grown_refl | reflexivity]).
    + destruct (base_dependencies t) as [c|];
        [| split; [apply grown_refl | reflexivity]].
      destruct (DependencyContainer.initialize c) as [[[]|e] c'];
        (split; [apply grown_refl | reflexivity]).
  - rewrite destroy_state. destruct (read_initialized t);
      (split; [apply grown_refl | reflexivity]).
  - destruct (set_providers_base myProviders name t) as (H1 & H2 & _).
    now split.
  - rewrite resolveDependency_state. split; [apply grown_refl | reflexivity].
  - rewrite expressRouter_state. split; [apply grown_refl | reflexivity].
  - rewrite expressServiceModule_state.
    destruct (set_providers_base providers name
                (snd (write_expressRouter router t))) as (H1 & H2 & _).
    now split.
Qed.

Lemma exec_base_dependencies k name t :
  related (fun c c' => same_keys c c' /\ (k <> Initialize -> c' = c))
    (base_dependencies t) (base_dependencies (exec k name t)).
Proof.
  assert (R : forall o : option DependencyContainer.t,
             related (fun c c' => same_keys c c' /\ (k <> Initialize -> c' = c))
               o o)
    by (intro o; apply related_refl; intro a; now split).
  destruct k; cbn [exec].
  - rewrite initialize_state. destruct (read_initialized t); [apply R |].
    destruct (dependencies (own t)) as [c|].
    + destruct (DependencyContainer.initialize c) as [[[]|e] c']; apply R.
    + destruct (base_dependencies t) as [c|] eqn:Eb; [| rewrite Eb; apply R].
      pose proof (dc_initialize_keys c) as Hk.
      destruct (DependencyContainer.initialize c) as [[[]|e] c'];
        (simpl; split; [exact Hk | congruence]).
  - rewrite destroy_state. destruct (read_initialized t); apply R.
  - destruct (set_providers_base myProviders name t) as (_ & _ & ->). apply R.
  - rewrite resolveDependency_state. apply R.
  - rewrite expressRouter_state. apply R.
  - rewrite expressServiceModule_state.
    destruct (set_providers_base providers name
                (snd (write_expressRouter router t))) as (_ & _ & ->).
    apply R.
Qed.

(** Only [destroy()] replaces the own array of the class it is called on. *)
Lemma exec_own_providerKeys k name t :
  k <> Destroy ->
  related grown (providerKeys (own t)) (providerKeys (own (exec k name t))).
Proof.
  assert (R : forall o, related grown o o)
    by (intro o; apply related_refl; apply grown_refl).
  assert (Hs : forall P u,
             related grown (providerKeys (own u))
               (providerKeys (own (snd (set_providers P name u))))).
  { intros P u. rewrite set_providers_state. destruct (read_initialized u).
    - apply R.
    - unfold provided. cbn [own providerKeys].
      destruct (providerKeys (own u)); simpl; [| exact I].
      now exists (keys_of P). }
  intro Hk. destruct k; cbn [exec]; try congruence.
  - rewrite initialize_state. destruct (read_initialized t); [apply R |].
    destruct (dependencies (own t)) as [c|].
    + destruct (DependencyContainer.initialize c) as [[[]|e] c']; apply R.
    + destruct (base_dependencies t) as [c|]; [| apply R].
      destruct (DependencyContainer.initialize c) as [[[]|e] c']; apply R.
  - apply Hs.
  - rewrite resolveDependency_state. apply R.
  - rewrite expressRouter_state. apply R.
  - rewrite expressServiceModule_state.
    exact (Hs providers (snd (write_expressRouter router t))).
Qed.

(** What a call on [b] does to the array and to the container another class
    owns. *)
Lemma step_elsewhere_providerKeys s b k x :
  x <> b ->
  providerKeys (step s (b, k) x) = providerKeys (s x)
  \/ (is_or_extends b x = true
      /\ providerKeys (s x) = Some (base_providerKeys (view s b))
      /\ providerKeys (step s (b, k) x)
         = Some (base_providerKeys (exec k (class_name b) (view s b)))).
Proof.
  intro Hne. rewrite step_exec. unfold store.
  rewrite (update_other b _ _ x Hne).
  destruct b as [|n p]; [now left |]. cbv zeta.
  set (t' := exec k (class_name (n :: p)) (view s (n :: p))).
  assert (H : providerKeys
                (match base_dependencies t' with
                 | Some d =>
                     store_dependencies d
                       (store_providerKeys (base_providerKeys t') s p) p
                 | None => store_providerKeys (base_providerKeys t') s p
                 end x)
              = providerKeys (store_providerKeys (base_providerKeys t') s p x)).
  { destruct (base_dependencies t');
      [apply store_dependencies_providerKeys | reflexivity]. }
  rewrite H.
  destruct (store_providerKeys_at (base_providerKeys t') s p x)
    as [H0 | (H0 & H1 & H2 & H3)]; [now left |].
  right. split; [apply is_or_extends_cons; now right |].
  split; [| exact H3].
  unfold view. cbn [base_providerKeys above]. rewrite <- H1.
  now destruct (providerKeys (s x)).
Qed.

Lemma step_elsewhere_dependencies s b k x :
  x <> b ->
  related (fun c c' => same_keys c c' /\ (k <> Initialize -> c' = c))
    (dependencies (s x)) (dependencies (step s (b, k) x)).
Proof.
  assert (R : forall o : option DependencyContainer.t,
             related (fun c c' => same_keys c c' /\ (k <> Initialize -> c' = c))
               o o)
    by (intro o; apply related_refl; intro a; now split).
  intro Hne. rewrite step_exec. unfold store.
  rewrite (update_other b _ _ x Hne).
  destruct b as [|n p]; [apply R |]. cbv zeta.
  set (t' := exec k (class_name (n :: p)) (view s (n :: p))).
  set (s1 := store_providerKeys (base_providerKeys t') s p).
  assert (H1 : forall y, dependencies (s1 y) = dependencies (s y))
    by (intro y; apply store_providerKeys_others).
  pose proof (exec_base_dependencies k (class_name (n :: p)) (view s (n :: p)))
    as Hb.
  fold t' in Hb.
  destruct (base_dependencies t') as [d|] eqn:Ed;
    [| rewrite H1; apply R].
  destruct (store_dependencies_at d s1 p x) as [H | (Ha & Hb' & ->)].
  - rewrite H, H1. apply R.
  - rewrite (inherited_same dependencies s s1 p (fun y _ => H1 y)) in Ha.
    rewrite H1 in Ha. rewrite Ha.
    unfold view in Hb. cbn [base_dependencies above] in Hb. exact Hb.
Qed.

(** Every call on a class changes at most the entries' values, not the keys,
    of the container that a class outside its chain reads, and only
    [initialize()] changes anything of it, by materializing a container it
    inherits. *)
Theorem only_initialize_changes_container_elsewhere t b k c :
  is_or_extends c b = false ->
  related same_keys
    (read_dependencies (view (run t declared) c))
    (read_dependencies (view (step (run t declared) (b, k)) c))
  /\ (k <> Initialize ->
      read_dependencies (view (step (run t declared) (b, k)) c)
      = read_dependencies (view (run t declared) c)).
Proof.
  intro Hc. set (s := run t declared). rewrite !read_dependencies_view.
  assert (Hx : forall x, is_or_extends c x = true -> x <> b)
    by (intros x Hx ->; congruence).
  split.
  - apply inherited_related. intros x Hin.
    pose proof (step_elsewhere_dependencies s b k x (Hx x Hin)) as H.
    unfold related in *.
    destruct (dependencies (s x)), (dependencies (step s (b, k) x));
      try contradiction; [exact (proj1 H) | exact I].
  - intro Hk. apply inherited_same. intros x Hin.
    pose proof (step_elsewhere_dependencies s b k x (Hx x Hin)) as H.
    unfold related in H.
    destruct (dependencies (s x)), (dependencies (step s (b, k) x));
      try contradiction; [| reflexivity].
    f_equal. now apply H.
Qed.

Lemma only_initialize_changes_container_elsewhere_witness :
  is_or_extends ["Base"] Child = false
  /\ read_dependencies (view (run inherit_program declared) ["Base"])
     = Some [("Logger", LoggerClass); ("config", config)]
  /\ read_dependencies
       (view (step (run inherit_program declared) (Child, Initialize)) ["Base"])
     = Some [("Logger", VObject "LoggerClass"
                          [("lines", VNumber 0); ("level", VString "info")]);
             ("config", config)]
  /\ related same_keys
       (read_dependencies (view (run inherit_program declared) ["Base"]))
       (read_dependencies
          (view (step (run inherit_program declared) (Child, Initialize))
             ["Base"])).
Proof.
  split; [reflexivity |]. split; [reflexivity |]. split; [reflexivity |].
  exact (proj1 (only_initialize_changes_container_elsewhere inherit_program
                  Child Initialize ["Base"] eq_refl)).
Defined.

(** No call removes a key from the list a class reads, except [destroy()] on
    that class or on a class it extends: keys pushed by the class or, through
    an array it shares along its chain, by any other class stay
    registered. *)
Theorem registered_keys_only_grow t ev c k :
  (is_or_extends c (fst ev) = true -> snd ev <> Destroy) ->
  In k (read_providerKeys (view (run t declared) c)) ->
  In k (read_providerKeys (view (step (run t declared) ev) c)).
Proof.
  set (s := run t declared). destruct ev as [b call]. cbn [fst snd].
  intros Hev. rewrite !read_providerKeys_view.
  assert (H : related grown (inherited providerKeys s c)
                (inherited providerKeys (step s (b, call)) c)).
  { apply inherited_related. intros x Hx.
    destruct (list_eq_dec string_dec x b) as [-> | Hne].
    - rewrite step_exec, store_same.
      exact (exec_own_providerKeys call (class_name b) (view s b) (Hev Hx)).
    - destruct (step_elsewhere_providerKeys s b call x Hne)
        as [-> | (_ & -> & ->)].
      + apply related_refl, grown_refl.
      + exact (proj1 (exec_base_providerKeys call (class_name b) (view s b))). }
  unfold related in H.
  destruct (inherited providerKeys s c) as [l|],
           (inherited providerKeys (step s (b, call)) c) as [l'|];
    cbv beta iota in H; try contradiction.
  destruct H as [extra ->]. intro Hin. apply in_or_app. now left.
Qed.

Lemma registered_keys_only_grow_witness :
  (is_or_extends Child (fst (["Base"], SetProviders one_provider)) = true ->
   snd (["Base"], SetProviders one_provider) <> Destroy)
  /\ In "Logger" (read_providerKeys (view (run inherit_program declared) Child))
  /\ In "Logger"
       (read_providerKeys
          (view (step (run inherit_program declared)
                   (["Base"], SetProviders one_provider)) Child)).
Proof.
  assert (H1 : is_or_extends Child (fst (["Base"], SetProviders one_provider))
               = true ->
               snd (["Base"], SetProviders one_provider) <> Destroy)
    by (intros _; discriminate).
  assert (H2 : In "Logger"
                 (read_providerKeys (view (run inherit_program declared) Child)))
    by (simpl; tauto).
  split; [exact H1 |]. split; [exact H2 |].
  exact (registered_keys_only_grow inherit_program
           (["Base"], SetProviders one_provider) Child "Logger" H1 H2).
Defined.

Lemma run_elsewhere_providerKeys t s c :
  (forall ev, In ev t -> is_or_extends (fst ev) c = false) ->
  providerKeys (run t s c) = providerKeys (s c).
Proof.
  revert s. induction t as [|[b k] t IH]; intros s H; [reflexivity |].
  cbn [run fold_left]. fold (run t (step s (b, k))).
  rewrite IH by (intros ev Hin; apply H; now right).
  pose proof (H (b, k) (or_introl eq_refl)) as Hb. cbn [fst] in Hb.
  assert (Hne : c <> b).
  { intros ->. now rewrite is_or_extends_refl in Hb. }
  destruct (step_elsewhere_providerKeys s b k c Hne) as [E | (E & _)];
    [exact E | congruence].
Qed.

(** Once a class has run [destroy()], its key list is its own: it is empty,
    calls on classes that are not the class and do not extend it never add a
    key to it, and providers the class sets afterwards are not added to the
    list that such a class reads. *)
Theorem destroyed_class_is_isolated t0 c :
  read_initialized (view (run t0 declared) c) = true ->
  (forall t, (forall ev, In ev t -> is_or_extends (fst ev) c = false) ->
             read_providerKeys
               (view (run t (step (run t0 declared) (c, Destroy))) c) = [])
  /\ (forall P d, is_or_extends d c = false ->
        read_providerKeys
          (view (step (step (run t0 declared) (c, Destroy))
                   (c, SetProviders P)) d)
        = read_providerKeys (view (step (run t0 declared) (c, Destroy)) d)).
Proof.
  set (s := run t0 declared). intro Hi.
  assert (Hd : providerKeys (step s (c, Destroy) c) = Some []).
  { rewrite step_exec, store_same. cbn [exec]. now rewrite destroy_state, Hi. }
  set (s1 := step s (c, Destroy)) in *.
  split.
  - intros t Ht. rewrite read_providerKeys_view.
    pose proof (run_elsewhere_providerKeys t s1 c Ht) as E. rewrite Hd in E.
    destruct c; cbn [inherited]; now rewrite E.
  - intros P d Hdc. rewrite !read_providerKeys_view.
    rewrite (inherited_same providerKeys s1 (step s1 (c, SetProviders P)) d);
      [reflexivity |].
    intros x Hx.
    assert (Hne : x <> c) by (intros ->; congruence).
    destruct (step_elsewhere_providerKeys s1 c (SetProviders P) x Hne)
      as [E | (_ & E1 & E2)]; [exact E |].
    rewrite E1, E2. f_equal.
    apply (exec_base_providerKeys (SetProviders P) (class_name c) (view s1 c)).
    unfold view. cbn [own]. rewrite Hd. discriminate.
Qed.

Lemma destroyed_class_is_isolated_witness :
  read_initialized (view (run sample_program declared) ["B"]) = true
  /\ read_providerKeys
       (view (run [(["A"], SetProviders one_provider)]
                (step (run sample_program declared) (["B"], Destroy))) ["B"])
     = []
  /\ read_providerKeys
       (view (step (step (run sample_program declared) (["B"], Destroy))
                (["B"], SetProviders one_provider)) ["A"])
     = ["Logger"; "config"].
Proof.
  assert (Hi : read_initialized (view (run sample_program declared) ["B"])
               = true) by reflexivity.
  split; [exact Hi |].
  destruct (destroyed_class_is_isolated sample_program ["B"] Hi) as [H1 H2].
  split.
  - apply H1. intros ev [<- | []]. reflexivity.
  - exact (eq_trans (H2 one_provider ["A"] eq_refl) eq_refl).
Defined.

End ClassChains.
